(** * myx509: self-signed certificate generator

    A shallow embedding of the Go packages of [arailly/myx509]:

    - package [x509] of the repository ([privkey.go] and the certificate
      file), embedded as module [myx509];
    - the two command-line programs, embedded as [KeyCmd.main] and
      [CertCmd.main].

    The programs are thin wrappers around Go's standard library.  The
    library is not part of the repository, so every call into it goes
    through the record [GoRuntime]: the embedding fixes what the repository
    code passes to the library and what it does with the results, for any
    behaviour of the library.  Where a property of the program depends on the
    documented contract of a library function, that contract is a named
    proposition over the runtime ([issuance_contract], [rand_Int_contract],
    ...) taken as a hypothesis. *)

From Stdlib Require Import ZArith Lia List String Ascii Bool.
From stdpp Require Import base strings gmap.
Import ListNotations.

Open Scope string_scope.
Open Scope list_scope.
Open Scope Z_scope.

(** ** Go values used by the programs *)

(** A Go [[]byte] is either [nil] or a (possibly empty) sequence of bytes;
    the certificate code tests for [nil], so the distinction is kept. *)
Definition bytes := list Byte.byte.
Definition slice := option bytes.

Definition slice_bytes (s : slice) : bytes :=
  match s with Some b => b | None => [] end.

(** Go [error] values.  [ExtError] is an error produced inside the standard
    library; [fmt_Errorf text] is [fmt.Errorf(text)]; [fmt_Errorf_w text
    cause] is [fmt.Errorf(text + ": %w", cause)], with the [%s] verbs of the
    format already substituted. *)
Inductive error : Type :=
| ExtError (msg : string)
| fmt_Errorf (text : string)
| fmt_Errorf_w (text : string) (cause : error).

Fixpoint error_Error (e : error) : string :=
  match e with
  | ExtError msg => msg
  | fmt_Errorf text => text
  | fmt_Errorf_w text c => text +:+ ": " +:+ error_Error c
  end.

(** A Go [(T, error)] result: exactly one of the two is meaningful. *)
Inductive result (T : Type) : Type :=
| Ok (v : T)
| Err (e : error).
Arguments Ok {T} v.
Arguments Err {T} e.

(** ** 64-bit integers: [int], [int64], [time.Duration] *)

Definition wrap64 (z : Z) : Z := (z + 2^63) mod 2^64 - 2^63.

Definition int64_range (z : Z) : Prop := - 2^63 <= z < 2^63.

Module time.

(** [time.Duration] is an [int64] count of nanoseconds. *)
Definition Duration := Z.

Definition Nanosecond : Duration := 1.
Definition Microsecond : Duration := 1000 * Nanosecond.
Definition Millisecond : Duration := 1000 * Microsecond.
Definition Second : Duration := 1000 * Millisecond.
Definition Minute : Duration := 60 * Second.
Definition Hour : Duration := 60 * Minute.

(** Multiplication of two [Duration]s: [int64] arithmetic, wrapping. *)
Definition mul (a b : Duration) : Duration := wrap64 (a * b).

(** A [time.Time] instant, as nanoseconds since the Unix epoch.  Go's
    representation covers far more than [now] plus or minus an [int64]
    count of nanoseconds, so [Add] on a clock reading never saturates. *)
Definition Time := Z.

Definition Add (t : Time) (d : Duration) : Time := t + d.

(** [t.Sub(u)], saturating at the ends of the [Duration] range. *)
Definition Sub (t u : Time) : Duration :=
  if t - u <? - 2^63 then - 2^63
  else if 2^63 - 1 <? t - u then 2^63 - 1
  else t - u.

End time.

(** ** [strings] and [path/filepath] (Unix) *)

Module strings.

(** [strings.HasSuffix(s, suffix)]:
    [len(s) >= len(suffix) && s[len(s)-len(suffix):] == suffix]. *)
Definition HasSuffix (s suffix : string) : bool :=
  (String.length suffix <=? String.length s)%nat &&
  String.eqb
    (substring (String.length s - String.length suffix)
               (String.length suffix) s)
    suffix.

(** [strings.TrimSuffix(s, suffix)]: [s] without the trailing [suffix];
    [s] itself when it does not end with [suffix]. *)
Definition TrimSuffix (s suffix : string) : string :=
  if HasSuffix s suffix
  then substring 0 (String.length s - String.length suffix) s
  else s.

End strings.

Module filepath.

Definition IsPathSeparator (c : ascii) : bool := Ascii.eqb c "/".

(** The loop of [filepath.Ext]: walk the path from its last byte towards
    the first, stop at a separator, and return the suffix that starts at
    the first dot met.  [before] is the part of the path not yet visited,
    in reverse; [after] is the part already visited. *)
Fixpoint Ext_scan (before : list ascii) (after : list ascii) : list ascii :=
  match before with
  | [] => []
  | c :: before' =>
      if IsPathSeparator c then []
      else if Ascii.eqb c "." then c :: after
      else Ext_scan before' (c :: after)
  end.

(** [filepath.Ext(path)]: the suffix beginning at the final dot in the
    final element of [path]; empty if there is no dot. *)
Definition Ext (path : string) : string :=
  string_of_list_ascii (Ext_scan (rev (list_ascii_of_string path)) []).

End filepath.

(** ** [crypto/elliptic], [crypto/ecdsa], [crypto/x509/pkix], [crypto/x509] *)

Module elliptic.

Inductive Curve : Type := P224 | P256 | P384 | P521.

End elliptic.

Module ecdsa.

Record PublicKey : Type := {
  Curve : elliptic.Curve;
  X : Z;
  Y : Z
}.

Record PrivateKey : Type := {
  Public : PublicKey;   (* the embedded [PublicKey] *)
  D : Z
}.

End ecdsa.

Module pkix.

(** [pkix.Name], with the two fields the repository sets; every other
    field keeps its zero value. *)
Record Name : Type := {
  CommonName : string;
  Organization : list string
}.

Definition zero : Name := {| CommonName := ""; Organization := [] |}.

End pkix.

Module net.

Definition IP := bytes.

End net.

Module x509.

(** [x509.KeyUsage] is a bit set; the constants are [1 << iota]. *)
Definition KeyUsage := Z.
Definition KeyUsageDigitalSignature : KeyUsage := Z.shiftl 1 0.
Definition KeyUsageContentCommitment : KeyUsage := Z.shiftl 1 1.
Definition KeyUsageKeyEncipherment : KeyUsage := Z.shiftl 1 2.
Definition KeyUsageDataEncipherment : KeyUsage := Z.shiftl 1 3.
Definition KeyUsageKeyAgreement : KeyUsage := Z.shiftl 1 4.
Definition KeyUsageCertSign : KeyUsage := Z.shiftl 1 5.
Definition KeyUsageCRLSign : KeyUsage := Z.shiftl 1 6.

(** [ku] includes the usage [bit]: [ku & bit != 0]. *)
Definition has_usage (ku bit : KeyUsage) : bool :=
  negb (Z.land ku bit =? 0).

Inductive ExtKeyUsage : Type :=
| ExtKeyUsageAny
| ExtKeyUsageServerAuth
| ExtKeyUsageClientAuth
| ExtKeyUsageCodeSigning
| ExtKeyUsageEmailProtection.

(** [x509.Certificate], with the fields the repository sets or that the
    properties below read.  [Issuer] and [PublicKey] are left at their
    zero values in a template and filled in by parsing. *)
Record Certificate : Type := {
  SerialNumber : Z;
  Issuer : pkix.Name;
  Subject : pkix.Name;
  NotBefore : time.Time;
  NotAfter : time.Time;
  KeyUsage_ : KeyUsage;
  ExtKeyUsage_ : list ExtKeyUsage;
  BasicConstraintsValid : bool;
  IsCA : bool;
  DNSNames : list string;
  IPAddresses : list net.IP;
  PublicKey : option ecdsa.PublicKey
}.

End x509.

(** [os.FileMode] permission bits. *)
Definition FileMode := Z.
Definition perm_0600 : FileMode := 384.   (* 0600 *)
Definition perm_0644 : FileMode := 420.   (* 0644 *)

(** ** The world outside the repository *)

(** Arguments of an [slog] record. *)
Inductive LogValue : Type :=
| LString (s : string)
| LError (e : error)
| LInt (z : Z).

Inductive Level : Type := LevelInfo | LevelError.

(** One entry per call that leaves the repository's code, in program order. *)
Inductive Event : Type :=
| EvLog (lvl : Level) (msg : string) (attrs : list (string * LogValue))
| EvUsage
| EvGenerateKey (c : elliptic.Curve)
| EvMarshalECPrivateKey (k : ecdsa.PrivateKey)
| EvParseECPrivateKey (der : slice)
| EvRandInt (max : Z)
| EvNow
| EvCreateCertificate (template parent : x509.Certificate)
                      (pub : ecdsa.PublicKey) (priv : ecdsa.PrivateKey)
| EvParseCertificate (der : slice)
| EvWriteFile (name : string) (data : slice) (perm : FileMode)
| EvReadFile (name : string).

(** The standard-library functions the repository calls.  [Ω] is the state
    of everything outside the program: the entropy behind [rand.Reader], the
    clock, the file system.  Functions that read or change it thread it;
    the DER encoders and decoders are functions of their argument alone. *)
Record GoRuntime (Ω : Type) : Type := {
  ecdsa_GenerateKey : elliptic.Curve -> Ω -> result ecdsa.PrivateKey * Ω;
  x509_MarshalECPrivateKey : ecdsa.PrivateKey -> result slice;
  x509_ParseECPrivateKey : slice -> result ecdsa.PrivateKey;
  rand_Int : Z -> Ω -> result Z * Ω;
  time_Now : Ω -> time.Time * Ω;
  x509_CreateCertificate :
    x509.Certificate -> x509.Certificate ->
    ecdsa.PublicKey -> ecdsa.PrivateKey -> Ω -> result slice * Ω;
  x509_ParseCertificate : slice -> result x509.Certificate;
  os_WriteFile : string -> slice -> FileMode -> Ω -> option error * Ω;
  os_ReadFile : string -> Ω -> result slice * Ω
}.
Arguments ecdsa_GenerateKey {Ω} _ _ _.
Arguments x509_MarshalECPrivateKey {Ω} _ _.
Arguments x509_ParseECPrivateKey {Ω} _ _.
Arguments rand_Int {Ω} _ _ _.
Arguments time_Now {Ω} _ _.
Arguments x509_CreateCertificate {Ω} _ _ _ _ _ _.
Arguments x509_ParseCertificate {Ω} _ _.
Arguments os_WriteFile {Ω} _ _ _ _ _.
Arguments os_ReadFile {Ω} _ _ _.

(** The state a program runs in: the outside world and the calls made so
    far. *)
Record World (Ω : Type) : Type := {
  ext : Ω;
  trace : list Event
}.
Arguments ext {Ω} _.
Arguments trace {Ω} _.
Arguments Build_World {Ω} _ _.

(** ** The monad of Go statements

    A computation either returns a value or ends the process with
    [os.Exit(code)]; either way it leaves a new world. *)
Inductive Outcome (A : Type) : Type :=
| Ret (a : A)
| Exit (code : Z).
Arguments Ret {A} a.
Arguments Exit {A} code.

Definition M (Ω : Type) (A : Type) : Type := World Ω -> Outcome A * World Ω.

Section Monad.
Context {Ω : Type}.

Definition ret {A} (a : A) : M Ω A := fun w => (Ret a, w).

Definition bind {A B} (c : M Ω A) (k : A -> M Ω B) : M Ω B :=
  fun w =>
    match c w with
    | (Ret a, w') => k a w'
    | (Exit code, w') => (Exit code, w')
    end.

(** [os.Exit(code)]: nothing after it runs. *)
Definition os_Exit {A} (code : Z) : M Ω A := fun w => (Exit code, w).

Definition emit (ev : Event) : M Ω unit :=
  fun w => (Ret tt, {| ext := ext w; trace := trace w ++ [ev] |}).

(** A call of a library function that uses the outside world. *)
Definition call {A} (ev : Event) (f : Ω -> A * Ω) : M Ω A :=
  fun w =>
    let (a, ω') := f (ext w) in
    (Ret a, {| ext := ω'; trace := trace w ++ [ev] |}).

(** A call of a library function that depends on its arguments only. *)
Definition call_pure {A} (ev : Event) (a : A) : M Ω A :=
  fun w => (Ret a, {| ext := ext w; trace := trace w ++ [ev] |}).

Definition slog_Error (msg : string) (attrs : list (string * LogValue))
  : M Ω unit := emit (EvLog LevelError msg attrs).

Definition slog_Info (msg : string) (attrs : list (string * LogValue))
  : M Ω unit := emit (EvLog LevelInfo msg attrs).

Definition flag_Usage : M Ω unit := emit EvUsage.

End Monad.

Notation "'let*' x ':=' c 'in' k" := (bind c (fun x => k))
  (at level 10, x name, c at level 100, k at level 200).
Notation "c ';;' k" := (bind c (fun _ => k))
  (at level 100, k at level 200, right associativity).

(** The exit status of a program whose [main] is [m]: [0] when [main]
    returns. *)
Definition exit_status {A} (o : Outcome A) : Z :=
  match o with Ret _ => 0 | Exit code => code end.

(** ** Package [x509] of the repository *)

Module myx509.

(** [type PrivateKey struct { key *ecdsa.PrivateKey }].  The field is
    unexported and both constructors store a key, so the pointer is never
    [nil] in a value obtained from the package. *)
Record PrivateKey : Type := {
  key : ecdsa.PrivateKey
}.

(** [type Certificate struct { cert *x509.Certificate; derBytes []byte }];
    the zero value has both fields [nil]. *)
Record Certificate : Type := {
  cert : option x509.Certificate;
  derBytes : slice
}.

Section Package.
Context {Ω : Type} (go : GoRuntime Ω).

(** [NewPrivateKey], privkey.go lines 19-30. *)
Definition NewPrivateKey : M Ω (result PrivateKey) :=
  let* r := call (EvGenerateKey elliptic.P256)
                 (ecdsa_GenerateKey go elliptic.P256) in
  match r with
  | Err err =>
      slog_Error "Failed to generate private key" [("error", LError err)] ;;
      ret (Err (fmt_Errorf_w "failed to generate private key" err))
  | Ok priv =>
      slog_Info "Generated new private key" [] ;;
      ret (Ok {| key := priv |})
  end.

(** [(p *PrivateKey) Key()], privkey.go lines 33-35. *)
Definition PrivateKey_Key (p : PrivateKey) : ecdsa.PrivateKey := key p.

(** [(p *PrivateKey) SaveToFile(filePath)], privkey.go lines 38-56. *)
Definition PrivateKey_SaveToFile (p : PrivateKey) (filePath : string)
  : M Ω (option error) :=
  let* r := call_pure (EvMarshalECPrivateKey (key p))
                      (x509_MarshalECPrivateKey go (key p)) in
  match r with
  | Err err =>
      slog_Error "Failed to marshal private key to DER"
                 [("error", LError err)] ;;
      ret (Some (fmt_Errorf_w "failed to marshal private key to DER" err))
  | Ok der =>
      let* werr := call (EvWriteFile filePath der perm_0600)
                        (os_WriteFile go filePath der perm_0600) in
      match werr with
      | Some err =>
          slog_Error "Failed to write DER data to private key file"
                     [("path", LString filePath); ("error", LError err)] ;;
          ret (Some (fmt_Errorf_w
                       ("failed to write DER data to private key file "
                        +:+ filePath) err))
      | None =>
          slog_Info "Saved private key in DER format"
                    [("path", LString filePath)] ;;
          ret None
      end
  end.

(** [LoadPrivateKeyFromFile(filePath)], privkey.go lines 59-78. *)
Definition LoadPrivateKeyFromFile (filePath : string)
  : M Ω (result PrivateKey) :=
  let* r := call (EvReadFile filePath) (os_ReadFile go filePath) in
  match r with
  | Err err =>
      slog_Error "Failed to read private key file"
                 [("path", LString filePath); ("error", LError err)] ;;
      ret (Err (fmt_Errorf_w
                  ("failed to read private key file " +:+ filePath) err))
  | Ok derData =>
      let* r' := call_pure (EvParseECPrivateKey derData)
                           (x509_ParseECPrivateKey go derData) in
      match r' with
      | Err err =>
          slog_Error "Failed to parse DER-encoded private key"
                     [("path", LString filePath); ("error", LError err)] ;;
          ret (Err (fmt_Errorf_w
                      ("failed to parse DER-encoded private key from "
                       +:+ filePath) err))
      | Ok privKey =>
          slog_Info "Loaded private key in DER format"
                    [("path", LString filePath)] ;;
          ret (Ok {| key := privKey |})
      end
  end.

(** The bound of the serial number: [new(big.Int).Lsh(big.NewInt(1), 128)]. *)
Definition serialNumberLimit : Z := Z.shiftl 1 128.

(** The certificate template of [NewCertificate] (lines 44-66): the struct
    literal, then the two assignments made when [isCA] holds. *)
Definition template (serialNumber : Z) (now : time.Time)
    (commonName : string) (organization : list string)
    (dnsNames : list string) (ipAddresses : list net.IP)
    (validFor : time.Duration) (isCA : bool) : x509.Certificate :=
  let template := {|
    x509.SerialNumber := serialNumber;
    x509.Issuer := pkix.zero;
    x509.Subject := {| pkix.CommonName := commonName;
                       pkix.Organization := organization |};
    x509.NotBefore := now;
    x509.NotAfter := time.Add now validFor;
    x509.KeyUsage_ := x509.KeyUsageDigitalSignature;
    x509.ExtKeyUsage_ := [x509.ExtKeyUsageServerAuth;
                          x509.ExtKeyUsageClientAuth];
    x509.BasicConstraintsValid := true;
    x509.IsCA := false;
    x509.DNSNames := dnsNames;
    x509.IPAddresses := ipAddresses;
    x509.PublicKey := None
  |} in
  if isCA then
    {| x509.SerialNumber := x509.SerialNumber template;
       x509.Issuer := x509.Issuer template;
       x509.Subject := x509.Subject template;
       x509.NotBefore := x509.NotBefore template;
       x509.NotAfter := x509.NotAfter template;
       x509.KeyUsage_ := Z.lor (x509.KeyUsage_ template) x509.KeyUsageCertSign;
       x509.ExtKeyUsage_ := x509.ExtKeyUsage_ template;
       x509.BasicConstraintsValid := x509.BasicConstraintsValid template;
       x509.IsCA := true;
       x509.DNSNames := x509.DNSNames template;
       x509.IPAddresses := x509.IPAddresses template;
       x509.PublicKey := x509.PublicKey template |}
  else template.

(** [NewCertificate], certificate file lines 23-87. *)
Definition NewCertificate (privKey : PrivateKey)
    (commonName : string) (organization : list string)
    (dnsNames : list string) (ipAddresses : list net.IP)
    (validFor : time.Duration) (isCA : bool) : M Ω (result Certificate) :=
  let* r := call (EvRandInt serialNumberLimit)
                 (rand_Int go serialNumberLimit) in
  match r with
  | Err err =>
      slog_Error "Failed to generate serial number" [("error", LError err)] ;;
      ret (Err (fmt_Errorf_w "failed to generate serial number" err))
  | Ok serialNumber =>
      let* now := call EvNow (time_Now go) in
      let template := template serialNumber now commonName organization
                               dnsNames ipAddresses validFor isCA in
      let pubKey := ecdsa.Public (PrivateKey_Key privKey) in
      let* r1 := call (EvCreateCertificate template template pubKey
                                           (PrivateKey_Key privKey))
                      (x509_CreateCertificate go template template pubKey
                                              (PrivateKey_Key privKey)) in
      match r1 with
      | Err err =>
          slog_Error "Failed to create certificate" [("error", LError err)] ;;
          ret (Err (fmt_Errorf_w "failed to create certificate" err))
      | Ok derBytes =>
          let* r2 := call_pure (EvParseCertificate derBytes)
                               (x509_ParseCertificate go derBytes) in
          match r2 with
          | Err err =>
              slog_Error "Failed to parse created certificate"
                         [("error", LError err)] ;;
              ret (Err (fmt_Errorf_w "failed to parse created certificate" err))
          | Ok cert =>
              slog_Info "Successfully created new certificate"
                        [("subject", LString commonName);
                         ("serial", LInt serialNumber)] ;;
              ret (Ok {| cert := Some cert; derBytes := derBytes |})
          end
      end
  end.

(** [(c *Certificate) Cert()] and [(c *Certificate) DERBytes()]. *)
Definition Certificate_Cert (c : Certificate) : option x509.Certificate :=
  cert c.

Definition Certificate_DERBytes (c : Certificate) : slice := derBytes c.

(** [(c *Certificate) SaveToFile(filePath)], certificate file lines
    100-111. *)
Definition Certificate_SaveToFile (c : Certificate) (filePath : string)
  : M Ω (option error) :=
  match derBytes c with
  | None => ret (Some (fmt_Errorf "certificate DER bytes are nil, cannot save"))
  | Some _ =>
      let* werr := call (EvWriteFile filePath (derBytes c) perm_0644)
                        (os_WriteFile go filePath (derBytes c) perm_0644) in
      match werr with
      | Some err =>
          slog_Error "Failed to write DER data to certificate file"
                     [("path", LString filePath); ("error", LError err)] ;;
          ret (Some (fmt_Errorf_w
                       ("failed to write DER data to certificate file "
                        +:+ filePath) err))
      | None =>
          slog_Info "Saved certificate in DER format"
                    [("path", LString filePath)] ;;
          ret None
      end
  end.

End Package.

End myx509.

(** ** The key-only command *)

Module KeyCmd.

(** The flag variables after [flag.Parse()]; [defaults] are the values the
    [flag.StringVar] calls register. *)
Record Flags : Type := {
  outputFilePath : string
}.

Definition defaults : Flags := {| outputFilePath := "private_key.der" |}.

Section Command.
Context {Ω : Type} (go : GoRuntime Ω).

(** [main], key-only command lines 11-37. *)
Definition main (f : Flags) : M Ω unit :=
  let outputFilePath := outputFilePath f in
  (if String.eqb outputFilePath "" then
     slog_Error "Output file path cannot be empty" [] ;;
     flag_Usage ;;
     os_Exit 1
   else ret tt) ;;
  let* r := myx509.NewPrivateKey go in
  match r with
  | Err err =>
      slog_Error "Failed to generate private key" [("error", LError err)] ;;
      os_Exit 1
  | Ok privKey =>
      let* serr := myx509.PrivateKey_SaveToFile go privKey outputFilePath in
      match serr with
      | Some err =>
          slog_Error "Failed to save private key to file"
                     [("path", LString outputFilePath); ("error", LError err)] ;;
          os_Exit 1
      | None =>
          slog_Info "Successfully generated and saved private key"
                    [("path", LString outputFilePath)]
      end
  end.

End Command.

End KeyCmd.

(** ** The key and certificate command *)

Module CertCmd.

Record Flags : Type := {
  privKeyFilePath : string;
  certFilePath : string;
  commonName : string;
  org : string;
  validityDays : Z       (* a Go [int], 64 bits wide *)
}.

Definition defaults : Flags := {|
  privKeyFilePath := "private_key.der";
  certFilePath := "";
  commonName := "Self Signed Cert";
  org := "My Org";
  validityDays := 365
|}.

(** Lines 41-44: the certificate path when [-cert] is empty. *)
Definition deriveCertFilePath (privKeyFilePath certFilePath : string)
  : string :=
  if String.eqb certFilePath "" then
    let baseName :=
      strings.TrimSuffix privKeyFilePath (filepath.Ext privKeyFilePath) in
    baseName +:+ ".crt"
  else certFilePath.

(** Line 64: [time.Duration(validityDays) * 24 * time.Hour]. *)
Definition validFor (validityDays : Z) : time.Duration :=
  time.mul (time.mul (wrap64 validityDays) 24) time.Hour.

Section Command.
Context {Ω : Type} (go : GoRuntime Ω).

(** [main], cmd/main.go lines 15-86. *)
Definition main (f : Flags) : M Ω unit :=
  let privKeyFilePath := privKeyFilePath f in
  (if String.eqb privKeyFilePath "" then
     slog_Error "Private key output file path cannot be empty" [] ;;
     flag_Usage ;;
     os_Exit 1
   else ret tt) ;;
  let certFilePath := deriveCertFilePath privKeyFilePath (certFilePath f) in
  slog_Info "Generating new private key..." [] ;;
  let* r := myx509.NewPrivateKey go in
  match r with
  | Err err =>
      slog_Error "Failed to generate private key" [("error", LError err)] ;;
      os_Exit 1
  | Ok privKey =>
      slog_Info "Saving private key..." [("path", LString privKeyFilePath)] ;;
      let* serr := myx509.PrivateKey_SaveToFile go privKey privKeyFilePath in
      match serr with
      | Some err =>
          slog_Error "Failed to save private key to file"
                     [("path", LString privKeyFilePath);
                      ("error", LError err)] ;;
          os_Exit 1
      | None =>
          slog_Info "Successfully saved private key"
                    [("path", LString privKeyFilePath)] ;;
          slog_Info "Generating new certificate..." [] ;;
          let validFor := validFor (validityDays f) in
          let* rc := myx509.NewCertificate go privKey (commonName f)
                       [org f] [] [] validFor false in
          match rc with
          | Err err =>
              slog_Error "Failed to generate certificate"
                         [("error", LError err)] ;;
              os_Exit 1
          | Ok cert =>
              slog_Info "Saving certificate..."
                        [("path", LString certFilePath)] ;;
              let* cerr := myx509.Certificate_SaveToFile go cert
                             certFilePath in
              match cerr with
              | Some err =>
                  slog_Error "Failed to save certificate to file"
                             [("path", LString certFilePath);
                              ("error", LError err)] ;;
                  os_Exit 1
              | None =>
                  slog_Info "Successfully generated and saved certificate"
                            [("path", LString certFilePath)]
              end
          end
      end
  end.

End Command.

End CertCmd.

(** ** Reading a trace *)

(** The files written by a sequence of calls: name, data and mode of every
    [os.WriteFile], in order. *)
Fixpoint writes (evs : list Event) : list (string * slice * FileMode) :=
  match evs with
  | [] => []
  | EvWriteFile name data perm :: evs' => (name, data, perm) :: writes evs'
  | _ :: evs' => writes evs'
  end.

(** A call into Go's [crypto] packages. *)
Definition is_crypto (ev : Event) : bool :=
  match ev with
  | EvGenerateKey _ | EvRandInt _ | EvCreateCertificate _ _ _ _
  | EvMarshalECPrivateKey _ | EvParseECPrivateKey _ | EvParseCertificate _ =>
      true
  | _ => false
  end.

(** The nine permission bits of a mode, as [ls] prints them. *)
Definition perm_string (m : FileMode) : string :=
  let bit (i : Z) (c : ascii) : ascii := if Z.testbit m i then c else "-"%char in
  String (bit 8 "r"%char) (String (bit 7 "w"%char) (String (bit 6 "x"%char)
  (String (bit 5 "r"%char) (String (bit 4 "w"%char) (String (bit 3 "x"%char)
  (String (bit 2 "r"%char) (String (bit 1 "w"%char) (String (bit 0 "x"%char)
  EmptyString)))))))).

(** An extension is empty or a dot followed by bytes that are neither a dot
    nor a separator. *)
Definition is_extension (e : string) : Prop :=
  e = "" \/
  exists rest,
    e = String "." rest /\
    Forall (fun c => c <> "."%char /\ c <> "/"%char) (list_ascii_of_string rest).

(** The calls of a run of the key and certificate command in which every
    step succeeds, in program order. *)
Definition success_trace (f : CertCmd.Flags) (k : ecdsa.PrivateKey)
    (keyDer : slice) (t : x509.Certificate) (certDer : slice)
  : list Event :=
  let keyPath := CertCmd.privKeyFilePath f in
  let certPath := CertCmd.deriveCertFilePath keyPath (CertCmd.certFilePath f) in
  [ EvLog LevelInfo "Generating new private key..." [];
    EvGenerateKey elliptic.P256;
    EvLog LevelInfo "Generated new private key" [];
    EvLog LevelInfo "Saving private key..." [("path", LString keyPath)];
    EvMarshalECPrivateKey k;
    EvWriteFile keyPath keyDer perm_0600;
    EvLog LevelInfo "Saved private key in DER format"
          [("path", LString keyPath)];
    EvLog LevelInfo "Successfully saved private key"
          [("path", LString keyPath)];
    EvLog LevelInfo "Generating new certificate..." [];
    EvRandInt myx509.serialNumberLimit;
    EvNow;
    EvCreateCertificate t t (ecdsa.Public k) k;
    EvParseCertificate certDer;
    EvLog LevelInfo "Successfully created new certificate"
          [("subject", LString (CertCmd.commonName f));
           ("serial", LInt (x509.SerialNumber t))];
    EvLog LevelInfo "Saving certificate..." [("path", LString certPath)];
    EvWriteFile certPath certDer perm_0644;
    EvLog LevelInfo "Saved certificate in DER format"
          [("path", LString certPath)];
    EvLog LevelInfo "Successfully generated and saved certificate"
          [("path", LString certPath)] ].

(** ** Documented contracts of the standard library *)

Section Contracts.
Context {Ω : Type} (go : GoRuntime Ω).

(** [rand.Int]: "returns a uniform random value in [0, max)". *)
Definition rand_Int_contract : Prop :=
  forall max ω n ω',
    rand_Int go max ω = (Ok n, ω') -> 0 <= n < max.

(** [x509.CreateCertificate] followed by [x509.ParseCertificate]: the
    certificate is issued by [parent] for the subject and public key given,
    with the template's serial number, usages and basic constraints.

    Names come back in the canonical form of their DER encoding, [canon]:
    the values of a multi-valued attribute are sorted, so the common name
    and an organization list of at most one value are kept as they are.  The
    key-usage extension carries nine bits, and the CA flag is encoded only in
    a valid basic-constraints extension. *)
Definition issuance_contract : Prop :=
  exists canon : pkix.Name -> pkix.Name,
    (forall n, pkix.CommonName (canon n) = pkix.CommonName n) /\
    (forall n, (List.length (pkix.Organization n) <= 1)%nat ->
               pkix.Organization (canon n) = pkix.Organization n) /\
    forall t p pub priv ω der ω' c,
      x509_CreateCertificate go t p pub priv ω = (Ok der, ω') ->
      x509_ParseCertificate go der = Ok c ->
      x509.Issuer c = canon (x509.Subject p) /\
      x509.Subject c = canon (x509.Subject t) /\
      x509.PublicKey c = Some pub /\
      x509.SerialNumber c = x509.SerialNumber t /\
      (0 <= x509.KeyUsage_ t < 2^9 -> x509.KeyUsage_ c = x509.KeyUsage_ t) /\
      x509.ExtKeyUsage_ c = x509.ExtKeyUsage_ t /\
      (x509.BasicConstraintsValid t = true ->
       x509.BasicConstraintsValid c = true /\ x509.IsCA c = x509.IsCA t).

(** [x509.ParseCertificate] rejects a [nil] input. *)
Definition parse_nil_contract : Prop :=
  forall c, x509_ParseCertificate go None <> Ok c.

(** [ecdsa.GenerateKey(c, rand)] returns a key on the curve [c]. *)
Definition keygen_contract : Prop :=
  forall c ω k ω',
    ecdsa_GenerateKey go c ω = (Ok k, ω') ->
    ecdsa.Curve (ecdsa.Public k) = c.

(** [x509.MarshalECPrivateKey] then [x509.ParseECPrivateKey], on a key that
    [ecdsa.GenerateKey] produced: parsing the encoding succeeds and yields
    the same public key.  Only the bytes of the encoding matter. *)
Definition key_codec_contract : Prop :=
  forall c ω k ω' der der',
    ecdsa_GenerateKey go c ω = (Ok k, ω') ->
    x509_MarshalECPrivateKey go k = Ok der ->
    slice_bytes der' = slice_bytes der ->
    exists k',
      x509_ParseECPrivateKey go der' = Ok k' /\
      ecdsa.Public k' = ecdsa.Public k.

(** [os.WriteFile] then [os.ReadFile] of the same name, with nothing in
    between: a read that succeeds returns the bytes written. *)
Definition file_contract : Prop :=
  forall name data perm ω ω' data' ω'',
    os_WriteFile go name data perm ω = (None, ω') ->
    os_ReadFile go name ω' = (Ok data', ω'') ->
    slice_bytes data' = slice_bytes data.

End Contracts.

(** ** A reference runtime

    A small executable instance of [GoRuntime], used to run the programs on
    concrete inputs.  Entropy is a finite supply of bytes (reading past its
    end is the failure of [rand.Reader]), the clock ticks at every reading,
    and the file system maps names to contents and modes.  Keys and
    certificates are encoded injectively but not in ASN.1, the public point
    of a key is a stand-in for the scalar multiple of the base point, and no
    signature is computed. *)

Module Ref.

Record State : Type := {
  files : gmap string (bytes * FileMode);
  entropy : bytes;
  clock : time.Time
}.

Definition set_entropy (e : bytes) (s : State) : State :=
  {| files := files s; entropy := e; clock := clock s |}.

Definition EOF : error := ExtError "unexpected EOF".

(** [io.ReadFull(rand.Reader, buf)] for a buffer of [n] bytes. *)
Definition read_entropy (n : nat) (s : State) : result bytes * State :=
  if (n <=? List.length (entropy s))%nat
  then (Ok (firstn n (entropy s)), set_entropy (skipn n (entropy s)) s)
  else (Err EOF, set_entropy [] s).

(** The value of a big-endian byte string, as [big.Int.SetBytes]. *)
Definition be_value (bs : bytes) : Z :=
  fold_left (fun acc b => acc * 256 + Z.of_N (Byte.to_N b)) bs 0.

(** One byte per binary digit of a positive number, least significant
    first, the leading one left out. *)
Fixpoint pos_to_bytes (p : positive) : bytes :=
  match p with
  | xH => []
  | xO p' => Byte.x00 :: pos_to_bytes p'
  | xI p' => Byte.x01 :: pos_to_bytes p'
  end.

Fixpoint bytes_to_pos (bs : bytes) : option positive :=
  match bs with
  | [] => Some xH
  | Byte.x00 :: bs' => option_map xO (bytes_to_pos bs')
  | Byte.x01 :: bs' => option_map xI (bytes_to_pos bs')
  | _ => None
  end.

#[local] Instance Curve_eq_dec : EqDecision elliptic.Curve.
Proof. solve_decision. Defined.

#[local] Instance Curve_countable : Countable elliptic.Curve.
Proof.
  refine (inj_countable'
    (fun c => match c with
              | elliptic.P224 => 0 | elliptic.P256 => 1
              | elliptic.P384 => 2 | elliptic.P521 => 3 end)
    (fun z => if z =? 0 then elliptic.P224 else if z =? 1 then elliptic.P256
              else if z =? 2 then elliptic.P384 else elliptic.P521) _).
  intros []; reflexivity.
Defined.

#[local] Instance ExtKeyUsage_eq_dec : EqDecision x509.ExtKeyUsage.
Proof. solve_decision. Defined.

#[local] Instance ExtKeyUsage_countable : Countable x509.ExtKeyUsage.
Proof.
  refine (inj_countable'
    (fun u => match u with
              | x509.ExtKeyUsageAny => 0 | x509.ExtKeyUsageServerAuth => 1
              | x509.ExtKeyUsageClientAuth => 2
              | x509.ExtKeyUsageCodeSigning => 3
              | x509.ExtKeyUsageEmailProtection => 4 end)
    (fun z => if z =? 0 then x509.ExtKeyUsageAny
              else if z =? 1 then x509.ExtKeyUsageServerAuth
              else if z =? 2 then x509.ExtKeyUsageClientAuth
              else if z =? 3 then x509.ExtKeyUsageCodeSigning
              else x509.ExtKeyUsageEmailProtection) _).
  intros []; reflexivity.
Defined.

#[local] Instance byte_eq_dec : EqDecision Byte.byte := Byte.byte_eq_dec.

#[local] Instance byte_countable : Countable Byte.byte :=
  inj_countable Byte.to_N Byte.of_N Byte.of_to_N.

(** The first byte of every encoding (the tag of an ASN.1 SEQUENCE). *)
Definition tag : Byte.byte := Byte.x30.

Definition seal {A} `{Countable A} (a : A) : slice :=
  Some (tag :: pos_to_bytes (encode a)).

Definition unseal {A} `{Countable A} (der : slice) : option A :=
  match der with
  | Some (Byte.x30 :: bs) =>
      match bytes_to_pos bs with
      | Some p => decode p
      | None => None
      end
  | _ => None
  end.

(** Stand-in for the public point [d * G] on the curve [c]. *)
Definition base_mult (c : elliptic.Curve) (d : Z) : ecdsa.PublicKey :=
  {| ecdsa.Curve := c; ecdsa.X := d; ecdsa.Y := d |}.

Definition GenerateKey (c : elliptic.Curve) (s : State)
  : result ecdsa.PrivateKey * State :=
  match read_entropy 1 s with
  | (Ok bs, s') =>
      let d := be_value bs + 1 in
      (Ok {| ecdsa.Public := base_mult c d; ecdsa.D := d |}, s')
  | (Err e, s') => (Err e, s')
  end.

Definition MarshalECPrivateKey (k : ecdsa.PrivateKey) : result slice :=
  Ok (seal (ecdsa.Curve (ecdsa.Public k), ecdsa.D k)).

(** As in Go, the public point is recomputed from the scalar. *)
Definition ParseECPrivateKey (der : slice) : result ecdsa.PrivateKey :=
  match unseal der with
  | Some (c, d) => Ok {| ecdsa.Public := base_mult c d; ecdsa.D := d |}
  | None => Err (ExtError "x509: failed to parse EC private key")
  end.

(** [rand.Int]: as many bytes as [max - 1] needs, reduced below [max]
    (Go samples again instead of reducing). *)
Definition Int (max : Z) (s : State) : result Z * State :=
  if max <=? 0 then (Err (ExtError "crypto/rand: argument to Int is <= 0"), s)
  else
    match read_entropy (Z.to_nat ((Z.log2_up max + 7) / 8)) s with
    | (Ok bs, s') => (Ok (be_value bs mod max), s')
    | (Err e, s') => (Err e, s')
    end.

Definition Now (s : State) : time.Time * State :=
  (clock s, {| files := files s; entropy := entropy s; clock := clock s + 1 |}).

Definition cert_fields (c : x509.Certificate) :=
  (((x509.SerialNumber c, x509.KeyUsage_ c),
    (x509.NotBefore c, x509.NotAfter c)),
   ((pkix.CommonName (x509.Issuer c), pkix.Organization (x509.Issuer c)),
    (pkix.CommonName (x509.Subject c), pkix.Organization (x509.Subject c))),
   (((x509.ExtKeyUsage_ c, x509.BasicConstraintsValid c),
     (x509.IsCA c, x509.DNSNames c)),
    (x509.IPAddresses c,
     match x509.PublicKey c with
     | Some pub => Some (ecdsa.Curve pub, (ecdsa.X pub, ecdsa.Y pub))
     | None => None
     end))).

Definition fields_cert
    (f : ((Z * Z) * (Z * Z)) *
         ((string * list string) * (string * list string)) *
         (((list x509.ExtKeyUsage * bool) * (bool * list string)) *
          (list bytes * option (elliptic.Curve * (Z * Z)))))
  : x509.Certificate :=
  let '(((sn, ku), (nb, na)), ((icn, iorg), (scn, sorg)),
        (((eku, bcv), (ca, dns)), (ips, pk))) := f in
  {| x509.SerialNumber := sn;
     x509.Issuer := {| pkix.CommonName := icn; pkix.Organization := iorg |};
     x509.Subject := {| pkix.CommonName := scn; pkix.Organization := sorg |};
     x509.NotBefore := nb;
     x509.NotAfter := na;
     x509.KeyUsage_ := ku;
     x509.ExtKeyUsage_ := eku;
     x509.BasicConstraintsValid := bcv;
     x509.IsCA := ca;
     x509.DNSNames := dns;
     x509.IPAddresses := ips;
     x509.PublicKey :=
       match pk with
       | Some (c, (x, y)) =>
           Some {| ecdsa.Curve := c; ecdsa.X := x; ecdsa.Y := y |}
       | None => None
       end |}.

(** The certificate that [parent] issues for [template] and [pub]. *)
Definition issue (template parent : x509.Certificate)
    (pub : ecdsa.PublicKey) : x509.Certificate :=
  {| x509.SerialNumber := x509.SerialNumber template;
     x509.Issuer := x509.Subject parent;
     x509.Subject := x509.Subject template;
     x509.NotBefore := x509.NotBefore template;
     x509.NotAfter := x509.NotAfter template;
     x509.KeyUsage_ := x509.KeyUsage_ template;
     x509.ExtKeyUsage_ := x509.ExtKeyUsage_ template;
     x509.BasicConstraintsValid := x509.BasicConstraintsValid template;
     x509.IsCA := x509.IsCA template;
     x509.DNSNames := x509.DNSNames template;
     x509.IPAddresses := x509.IPAddresses template;
     x509.PublicKey := Some pub |}.

Definition CreateCertificate (template parent : x509.Certificate)
    (pub : ecdsa.PublicKey) (priv : ecdsa.PrivateKey) (s : State)
  : result slice * State :=
  if x509.SerialNumber template <? 0
  then (Err (ExtError "x509: serial number must be positive"), s)
  else (Ok (seal (cert_fields (issue template parent pub))), s).

Definition ParseCertificate (der : slice) : result x509.Certificate :=
  match unseal der with
  | Some f => Ok (fields_cert f)
  | None => Err (ExtError "x509: malformed certificate")
  end.

(** [os.WriteFile]: create with mode [perm] or truncate an existing file,
    whose mode stays; the empty name is no file. *)
Definition WriteFile (name : string) (data : slice) (perm : FileMode)
    (s : State) : option error * State :=
  if String.eqb name "" then
    (Some (ExtError "open : no such file or directory"), s)
  else
    let mode := match files s !! name with
                | Some (_, m) => m
                | None => perm
                end in
    (None, {| files := <[name := (slice_bytes data, mode)]> (files s);
              entropy := entropy s; clock := clock s |}).

Definition ReadFile (name : string) (s : State) : result slice * State :=
  match files s !! name with
  | Some (data, _) => (Ok (Some data), s)
  | None =>
      (Err (ExtError ("open " +:+ name +:+ ": no such file or directory")), s)
  end.

Definition runtime : GoRuntime State := {|
  ecdsa_GenerateKey := GenerateKey;
  x509_MarshalECPrivateKey := MarshalECPrivateKey;
  x509_ParseECPrivateKey := ParseECPrivateKey;
  rand_Int := Int;
  time_Now := Now;
  x509_CreateCertificate := CreateCertificate;
  x509_ParseCertificate := ParseCertificate;
  os_WriteFile := WriteFile;
  os_ReadFile := ReadFile
|}.

(** An empty disk, the given entropy, the clock at [t]. *)
Definition boot (e : bytes) (t : time.Time) : World State :=
  {| ext := {| files := ∅; entropy := e; clock := t |}; trace := [] |}.

(** Sample inputs: a key, and entropy for one key and one serial number. *)
Definition sample_key : myx509.PrivateKey :=
  {| myx509.key := {| ecdsa.Public := base_mult elliptic.P256 8;
                      ecdsa.D := 8 |} |}.

Definition serial_entropy (lo : Byte.byte) : bytes :=
  repeat Byte.x00 15 ++ [lo].

Definition sample_entropy : bytes := Byte.x07 :: serial_entropy Byte.x2a.

Definition sample_world : World State := boot sample_entropy 1000.

Definition sample_flags (keyPath : string) (days : Z) : CertCmd.Flags :=
  {| CertCmd.privKeyFilePath := keyPath;
     CertCmd.certFilePath := CertCmd.certFilePath CertCmd.defaults;
     CertCmd.commonName := "example.com";
     CertCmd.org := "Example";
     CertCmd.validityDays := days |}.

End Ref.

(** * Properties *)

(** ** Strings and paths *)

Lemma length_append (a b : string) :
  String.length (a +:+ b) = (String.length a + String.length b)%nat.
Proof. induction a as [|c a IH]; simpl; [reflexivity | now rewrite IH]. Qed.

Lemma substring_all (s : string) : substring 0 (String.length s) s = s.
Proof. induction s as [|c s IH]; simpl; [reflexivity | now rewrite IH]. Qed.

Lemma substring_append_l (a b : string) :
  substring 0 (String.length a) (a +:+ b) = a.
Proof.
  induction a as [|c a IH]; simpl.
  - destruct b; reflexivity.
  - now rewrite IH.
Qed.

Lemma substring_append_r (a b : string) :
  substring (String.length a) (String.length b) (a +:+ b) = b.
Proof. induction a as [|c a IH]; simpl; [apply substring_all | exact IH]. Qed.

Lemma string_of_list_ascii_app (l1 l2 : list ascii) :
  string_of_list_ascii (l1 ++ l2) =
  string_of_list_ascii l1 +:+ string_of_list_ascii l2.
Proof. induction l1 as [|c l1 IH]; simpl; [reflexivity | now rewrite IH]. Qed.

(** [strings.HasSuffix] and [strings.TrimSuffix] on a string that ends with
    the suffix. *)
Lemma HasSuffix_append (base suffix : string) :
  strings.HasSuffix (base +:+ suffix) suffix = true.
Proof.
  unfold strings.HasSuffix. rewrite length_append.
  apply andb_true_iff; split.
  - apply Nat.leb_le. lia.
  - replace (String.length base + String.length suffix - String.length suffix)%nat
      with (String.length base) by lia.
    rewrite substring_append_r. apply String.eqb_refl.
Qed.

Lemma TrimSuffix_append (base suffix : string) :
  strings.TrimSuffix (base +:+ suffix) suffix = base.
Proof.
  unfold strings.TrimSuffix. rewrite HasSuffix_append, length_append.
  replace (String.length base + String.length suffix - String.length suffix)%nat
    with (String.length base) by lia.
  apply substring_append_l.
Qed.

(** The scan of [filepath.Ext] returns a suffix of what it was given. *)
Lemma Ext_scan_suffix (before after : list ascii) :
  exists pre, rev before ++ after = pre ++ filepath.Ext_scan before after.
Proof.
  revert after; induction before as [|c before IH]; intros after; simpl.
  - exists after. now rewrite app_nil_r.
  - destruct (filepath.IsPathSeparator c).
    + exists (rev before ++ [c] ++ after). now rewrite app_nil_r, <- app_assoc.
    + destruct (Ascii.eqb c ".").
      * exists (rev before). now rewrite <- app_assoc.
      * destruct (IH (c :: after)) as [pre Hpre]. exists pre.
        now rewrite <- app_assoc.
Qed.

(** Every path is a base name followed by its extension. *)
Lemma Ext_suffix (path : string) :
  exists base, path = base +:+ filepath.Ext path.
Proof.
  destruct (Ext_scan_suffix (rev (list_ascii_of_string path)) []) as [pre H].
  rewrite rev_involutive, app_nil_r in H.
  exists (string_of_list_ascii pre). unfold filepath.Ext.
  rewrite <- string_of_list_ascii_app, <- H.
  symmetry; apply string_of_list_ascii_of_string.
Qed.

Lemma Ext_scan_shape (before after : list ascii) :
  Forall (fun c => c <> "."%char /\ c <> "/"%char) after ->
  filepath.Ext_scan before after = [] \/
  exists rest, filepath.Ext_scan before after = "."%char :: rest /\
               Forall (fun c => c <> "."%char /\ c <> "/"%char) rest.
Proof.
  revert after; induction before as [|c before IH]; intros after Hafter; simpl.
  - now left.
  - unfold filepath.IsPathSeparator.
    destruct (Ascii.eqb_spec c "/"); [now left|].
    destruct (Ascii.eqb_spec c ".").
    + right. exists after. subst c. split; [reflexivity | exact Hafter].
    + apply IH. constructor; [split; assumption | exact Hafter].
Qed.

Lemma Ext_is_extension (path : string) : is_extension (filepath.Ext path).
Proof.
  unfold filepath.Ext.
  destruct (Ext_scan_shape (rev (list_ascii_of_string path)) []) as [H|[rest [H Hr]]];
    [constructor | |]; rewrite H.
  - now left.
  - right. exists (string_of_list_ascii rest). split; [reflexivity|].
    now rewrite list_ascii_of_string_of_list_ascii.
Qed.

(** ** 64-bit arithmetic *)

Lemma wrap64_id (z : Z) : int64_range z -> wrap64 z = z.
Proof.
  unfold int64_range, wrap64. intros H.
  rewrite Z.mod_small by lia. lia.
Qed.

Lemma wrap64_range (z : Z) : int64_range (wrap64 z).
Proof.
  unfold int64_range, wrap64.
  pose proof (Z.mod_pos_bound (z + 2^63) (2^64) ltac:(lia)). lia.
Qed.

(** Line 64 of the command computes [days] times 24 hours as long as the
    product fits a [Duration]: for up to 106751 days either way. *)
Lemma validFor_small (days : Z) :
  -106751 <= days <= 106751 ->
  CertCmd.validFor days = days * (24 * time.Hour).
Proof.
  intros H. unfold CertCmd.validFor, time.mul.
  change time.Hour with 3600000000000.
  rewrite (wrap64_id days) by (unfold int64_range; lia).
  rewrite (wrap64_id (days * 24)) by (unfold int64_range; lia).
  rewrite wrap64_id by (unfold int64_range; lia). lia.
Qed.

(** ** Running monadic code *)

Section RunLemmas.
Context {Ω : Type}.
Implicit Types w : World Ω.

Lemma bind_ret {A B} (a : A) (k : A -> M Ω B) w : bind (ret a) k w = k a w.
Proof. reflexivity. Qed.

Lemma bind_assoc {A B C} (c : M Ω A) (k1 : A -> M Ω B) (k2 : B -> M Ω C) w :
  bind (bind c k1) k2 w = bind c (fun a => bind (k1 a) k2) w.
Proof. unfold bind. destruct (c w) as [[a|code] w1]; reflexivity. Qed.

Lemma bind_emit {B} ev (k : unit -> M Ω B) w :
  bind (emit ev) k w = k tt {| ext := ext w; trace := trace w ++ [ev] |}.
Proof. reflexivity. Qed.

Lemma bind_call {A B} ev (f : Ω -> A * Ω) (k : A -> M Ω B) w :
  bind (call ev f) k w =
  k (fst (f (ext w))) {| ext := snd (f (ext w)); trace := trace w ++ [ev] |}.
Proof. unfold bind, call. destruct (f (ext w)); reflexivity. Qed.

Lemma bind_call_pure {A B} ev (a : A) (k : A -> M Ω B) w :
  bind (call_pure ev a) k w =
  k a {| ext := ext w; trace := trace w ++ [ev] |}.
Proof. reflexivity. Qed.

Lemma bind_Exit {A B} code (k : A -> M Ω B) w :
  bind (os_Exit code) k w = (Exit code, w).
Proof. reflexivity. Qed.

Lemma bind_match_result {T A B} (r : result T) (f : T -> M Ω A)
    (g : error -> M Ω A) (k : A -> M Ω B) w :
  bind (match r with Ok v => f v | Err e => g e end) k w =
  match r with Ok v => bind (f v) k w | Err e => bind (g e) k w end.
Proof. destruct r; reflexivity. Qed.

Lemma bind_match_option {T A B} (r : option T) (f : T -> M Ω A)
    (g : M Ω A) (k : A -> M Ω B) w :
  bind (match r with Some v => f v | None => g end) k w =
  match r with Some v => bind (f v) k w | None => bind g k w end.
Proof. destruct r; reflexivity. Qed.

Lemma bind_unfold {A B} (c : M Ω A) (k : A -> M Ω B) w :
  bind c k w =
  match c w with
  | (Ret a, w') => k a w'
  | (Exit code, w') => (Exit code, w')
  end.
Proof. reflexivity. Qed.

Lemma emit_run ev w :
  emit ev w = (Ret tt, {| ext := ext w; trace := trace w ++ [ev] |}).
Proof. reflexivity. Qed.

Lemma ret_run {A} (a : A) w : ret a w = (Ret a, w).
Proof. reflexivity. Qed.

Lemma os_Exit_run {A} code w : @os_Exit Ω A code w = (Exit code, w).
Proof. reflexivity. Qed.

End RunLemmas.

(** Runs the statements at the head of the goal up to the next library
    call, and flattens the trace. *)
Ltac run_norm :=
  unfold slog_Error, slog_Info, flag_Usage;
  cbn [fst snd ext trace];
  repeat (first
    [ rewrite bind_assoc | rewrite bind_ret | rewrite bind_emit
    | rewrite bind_call | rewrite bind_call_pure | rewrite bind_Exit
    | rewrite bind_match_result | rewrite bind_match_option
    | rewrite emit_run | rewrite ret_run | rewrite os_Exit_run ];
    cbn [fst snd ext trace]);
  repeat rewrite <- app_assoc; cbn [app].

(** ** What each function of the package does, call by call *)

Section PackageRuns.
Context {Ω : Type} (go : GoRuntime Ω).
Implicit Types w : World Ω.

Lemma NewPrivateKey_run w :
  myx509.NewPrivateKey go w =
  match ecdsa_GenerateKey go elliptic.P256 (ext w) with
  | (Ok priv, ω1) =>
      (Ret (Ok {| myx509.key := priv |}),
       {| ext := ω1;
          trace := trace w ++
            [EvGenerateKey elliptic.P256;
             EvLog LevelInfo "Generated new private key" []] |})
  | (Err err, ω1) =>
      (Ret (Err (fmt_Errorf_w "failed to generate private key" err)),
       {| ext := ω1;
          trace := trace w ++
            [EvGenerateKey elliptic.P256;
             EvLog LevelError "Failed to generate private key"
                   [("error", LError err)]] |})
  end.
Proof.
  unfold myx509.NewPrivateKey. run_norm.
  destruct (ecdsa_GenerateKey go _ _) as [[priv|err] ω1]; run_norm; reflexivity.
Qed.

Lemma PrivateKey_SaveToFile_run p filePath w :
  myx509.PrivateKey_SaveToFile go p filePath w =
  match x509_MarshalECPrivateKey go (myx509.key p) with
  | Err err =>
      (Ret (Some (fmt_Errorf_w "failed to marshal private key to DER" err)),
       {| ext := ext w;
          trace := trace w ++
            [EvMarshalECPrivateKey (myx509.key p);
             EvLog LevelError "Failed to marshal private key to DER"
                   [("error", LError err)]] |})
  | Ok der =>
      match os_WriteFile go filePath der perm_0600 (ext w) with
      | (Some err, ω1) =>
          (Ret (Some (fmt_Errorf_w
                        ("failed to write DER data to private key file "
                         +:+ filePath) err)),
           {| ext := ω1;
              trace := trace w ++
                [EvMarshalECPrivateKey (myx509.key p);
                 EvWriteFile filePath der perm_0600;
                 EvLog LevelError "Failed to write DER data to private key file"
                       [("path", LString filePath); ("error", LError err)]] |})
      | (None, ω1) =>
          (Ret None,
           {| ext := ω1;
              trace := trace w ++
                [EvMarshalECPrivateKey (myx509.key p);
                 EvWriteFile filePath der perm_0600;
                 EvLog LevelInfo "Saved private key in DER format"
                       [("path", LString filePath)]] |})
      end
  end.
Proof.
  unfold myx509.PrivateKey_SaveToFile. run_norm.
  destruct (x509_MarshalECPrivateKey go _) as [der|err]; run_norm;
    [|reflexivity].
  destruct (os_WriteFile go _ _ _ _) as [[err|] ω1]; run_norm; reflexivity.
Qed.

Lemma LoadPrivateKeyFromFile_run filePath w :
  myx509.LoadPrivateKeyFromFile go filePath w =
  match os_ReadFile go filePath (ext w) with
  | (Err err, ω1) =>
      (Ret (Err (fmt_Errorf_w
                   ("failed to read private key file " +:+ filePath) err)),
       {| ext := ω1;
          trace := trace w ++
            [EvReadFile filePath;
             EvLog LevelError "Failed to read private key file"
                   [("path", LString filePath); ("error", LError err)]] |})
  | (Ok derData, ω1) =>
      match x509_ParseECPrivateKey go derData with
      | Err err =>
          (Ret (Err (fmt_Errorf_w
                       ("failed to parse DER-encoded private key from "
                        +:+ filePath) err)),
           {| ext := ω1;
              trace := trace w ++
                [EvReadFile filePath; EvParseECPrivateKey derData;
                 EvLog LevelError "Failed to parse DER-encoded private key"
                       [("path", LString filePath); ("error", LError err)]] |})
      | Ok privKey =>
          (Ret (Ok {| myx509.key := privKey |}),
           {| ext := ω1;
              trace := trace w ++
                [EvReadFile filePath; EvParseECPrivateKey derData;
                 EvLog LevelInfo "Loaded private key in DER format"
                       [("path", LString filePath)]] |})
      end
  end.
Proof.
  unfold myx509.LoadPrivateKeyFromFile. run_norm.
  destruct (os_ReadFile go _ _) as [[derData|err] ω1]; run_norm;
    [|reflexivity].
  destruct (x509_ParseECPrivateKey go _) as [privKey|err]; run_norm;
    reflexivity.
Qed.

Lemma NewCertificate_run privKey cn organization dns ips validFor isCA w :
  myx509.NewCertificate go privKey cn organization dns ips validFor isCA w =
  match rand_Int go myx509.serialNumberLimit (ext w) with
  | (Err err, ω1) =>
      (Ret (Err (fmt_Errorf_w "failed to generate serial number" err)),
       {| ext := ω1;
          trace := trace w ++
            [EvRandInt myx509.serialNumberLimit;
             EvLog LevelError "Failed to generate serial number"
                   [("error", LError err)]] |})
  | (Ok serialNumber, ω1) =>
      let (now, ω2) := time_Now go ω1 in
      let t := myx509.template serialNumber now cn organization dns ips
                               validFor isCA in
      let pub := ecdsa.Public (myx509.key privKey) in
      match x509_CreateCertificate go t t pub (myx509.key privKey) ω2 with
      | (Err err, ω3) =>
          (Ret (Err (fmt_Errorf_w "failed to create certificate" err)),
           {| ext := ω3;
              trace := trace w ++
                [EvRandInt myx509.serialNumberLimit; EvNow;
                 EvCreateCertificate t t pub (myx509.key privKey);
                 EvLog LevelError "Failed to create certificate"
                       [("error", LError err)]] |})
      | (Ok der, ω3) =>
          match x509_ParseCertificate go der with
          | Err err =>
              (Ret (Err (fmt_Errorf_w "failed to parse created certificate"
                                      err)),
               {| ext := ω3;
                  trace := trace w ++
                    [EvRandInt myx509.serialNumberLimit; EvNow;
                     EvCreateCertificate t t pub (myx509.key privKey);
                     EvParseCertificate der;
                     EvLog LevelError "Failed to parse created certificate"
                           [("error", LError err)]] |})
          | Ok parsed =>
              (Ret (Ok {| myx509.cert := Some parsed;
                          myx509.derBytes := der |}),
               {| ext := ω3;
                  trace := trace w ++
                    [EvRandInt myx509.serialNumberLimit; EvNow;
                     EvCreateCertificate t t pub (myx509.key privKey);
                     EvParseCertificate der;
                     EvLog LevelInfo "Successfully created new certificate"
                           [("subject", LString cn);
                            ("serial", LInt serialNumber)]] |})
          end
      end
  end.
Proof.
  unfold myx509.NewCertificate, myx509.PrivateKey_Key. run_norm.
  destruct (rand_Int go _ _) as [[serialNumber|err] ω1]; run_norm;
    [|reflexivity].
  destruct (time_Now go ω1) as [now ω2]; run_norm.
  destruct (x509_CreateCertificate go _ _ _ _ _) as [[der|err] ω3]; run_norm;
    [|reflexivity].
  destruct (x509_ParseCertificate go der) as [parsed|err]; run_norm;
    reflexivity.
Qed.

Lemma Certificate_SaveToFile_run c filePath w :
  myx509.Certificate_SaveToFile go c filePath w =
  match myx509.derBytes c with
  | None =>
      (Ret (Some (fmt_Errorf "certificate DER bytes are nil, cannot save")), w)
  | Some _ =>
      match os_WriteFile go filePath (myx509.derBytes c) perm_0644 (ext w) with
      | (Some err, ω1) =>
          (Ret (Some (fmt_Errorf_w
                        ("failed to write DER data to certificate file "
                         +:+ filePath) err)),
           {| ext := ω1;
              trace := trace w ++
                [EvWriteFile filePath (myx509.derBytes c) perm_0644;
                 EvLog LevelError "Failed to write DER data to certificate file"
                       [("path", LString filePath); ("error", LError err)]] |})
      | (None, ω1) =>
          (Ret None,
           {| ext := ω1;
              trace := trace w ++
                [EvWriteFile filePath (myx509.derBytes c) perm_0644;
                 EvLog LevelInfo "Saved certificate in DER format"
                       [("path", LString filePath)]] |})
      end
  end.
Proof.
  unfold myx509.Certificate_SaveToFile.
  destruct (myx509.derBytes c) as [b|]; [|reflexivity]. run_norm.
  destruct (os_WriteFile go _ _ _ _) as [[err|] ω1]; run_norm; reflexivity.
Qed.

(** A successful [NewCertificate], read backwards. *)
Lemma NewCertificate_Ok_inv privKey cn organization dns ips validFor isCA
    w c w' :
  myx509.NewCertificate go privKey cn organization dns ips validFor isCA w
    = (Ret (Ok c), w') ->
  exists serialNumber ω1 now ω2 der ω3 parsed,
    let t := myx509.template serialNumber now cn organization dns ips
                             validFor isCA in
    rand_Int go myx509.serialNumberLimit (ext w) = (Ok serialNumber, ω1) /\
    time_Now go ω1 = (now, ω2) /\
    x509_CreateCertificate go t t (ecdsa.Public (myx509.key privKey))
      (myx509.key privKey) ω2 = (Ok der, ω3) /\
    x509_ParseCertificate go der = Ok parsed /\
    c = {| myx509.cert := Some parsed; myx509.derBytes := der |} /\
    ext w' = ω3.
Proof.
  rewrite NewCertificate_run.
  destruct (rand_Int go _ _) as [[serialNumber|err] ω1] eqn:Hr; [|discriminate].
  destruct (time_Now go ω1) as [now ω2] eqn:Hn. cbv zeta.
  destruct (x509_CreateCertificate go _ _ _ _ _) as [[der|err] ω3] eqn:Hc;
    [|discriminate].
  destruct (x509_ParseCertificate go der) as [parsed|err] eqn:Hp;
    [|discriminate].
  intros H; inversion H; subst; clear H.
  exists serialNumber, ω1, now, ω2, der, ω3, parsed. cbv zeta.
  repeat split; try reflexivity; assumption.
Qed.

End PackageRuns.

(** ** Runs of the commands *)

Section CommandRuns.
Context {Ω : Type} (go : GoRuntime Ω).
Implicit Types w : World Ω.

(** A run of the key and certificate command that returns from [main]:
    every library call succeeded, on the values that the earlier calls
    returned, and the calls made are exactly [success_trace]. *)
Lemma CertCmd_main_Ok_inv f w w' :
  CertCmd.main go f w = (Ret tt, w') ->
  exists k ω1 keyDer ω2 serialNumber ω3 now ω4 certDer ω5 parsed,
    let keyPath := CertCmd.privKeyFilePath f in
    let certPath :=
      CertCmd.deriveCertFilePath keyPath (CertCmd.certFilePath f) in
    let t := myx509.template serialNumber now (CertCmd.commonName f)
               [CertCmd.org f] [] []
               (CertCmd.validFor (CertCmd.validityDays f)) false in
    keyPath <> "" /\
    ecdsa_GenerateKey go elliptic.P256 (ext w) = (Ok k, ω1) /\
    x509_MarshalECPrivateKey go k = Ok keyDer /\
    os_WriteFile go keyPath keyDer perm_0600 ω1 = (None, ω2) /\
    rand_Int go myx509.serialNumberLimit ω2 = (Ok serialNumber, ω3) /\
    time_Now go ω3 = (now, ω4) /\
    x509_CreateCertificate go t t (ecdsa.Public k) k ω4 = (Ok certDer, ω5) /\
    x509_ParseCertificate go certDer = Ok parsed /\
    certDer <> None /\
    os_WriteFile go certPath certDer perm_0644 ω5 = (None, ext w') /\
    trace w' = trace w ++ success_trace f k keyDer t certDer.
Proof.
  unfold CertCmd.main.
  destruct (String.eqb_spec (CertCmd.privKeyFilePath f) "") as [He|Hne];
    run_norm; [discriminate|].
  rewrite (bind_unfold (myx509.NewPrivateKey go)), NewPrivateKey_run.
  cbn [ext trace].
  destruct (ecdsa_GenerateKey go _ _) as [[k|err] ω1] eqn:Hk; run_norm;
    [|discriminate].
  rewrite (bind_unfold (myx509.PrivateKey_SaveToFile go _ _)),
    PrivateKey_SaveToFile_run.
  cbn [ext trace myx509.key].
  destruct (x509_MarshalECPrivateKey go k) as [keyDer|err] eqn:Hm; run_norm;
    [|discriminate].
  destruct (os_WriteFile go _ keyDer _ _) as [[err|] ω2] eqn:Hw; run_norm;
    [discriminate|].
  rewrite (bind_unfold (myx509.NewCertificate go _ _ _ _ _ _ _)),
    NewCertificate_run.
  cbn [ext trace myx509.key].
  destruct (rand_Int go _ _) as [[serialNumber|err] ω3] eqn:Hr; run_norm;
    [|discriminate].
  destruct (time_Now go ω3) as [now ω4] eqn:Hn. cbv zeta.
  destruct (x509_CreateCertificate go _ _ _ _ _) as [[certDer|err] ω5] eqn:Hc;
    [|run_norm; discriminate].
  destruct (x509_ParseCertificate go certDer) as [parsed|err] eqn:Hp;
    run_norm; [|discriminate].
  rewrite (bind_unfold (myx509.Certificate_SaveToFile go _ _)),
    Certificate_SaveToFile_run.
  cbn [ext trace myx509.derBytes].
  destruct certDer as [certBytes|]; run_norm; [|discriminate].
  destruct (os_WriteFile go _ (Some certBytes) _ _) as [[err|] ω6] eqn:Hw';
    run_norm; [discriminate|].
  intros H; inversion H; subst; clear H. cbn [ext trace].
  exists k, ω1, keyDer, ω2, serialNumber, ω3, now, ω4, (Some certBytes), ω5,
    parsed.
  cbv zeta. repeat split; try assumption; try discriminate.
Qed.

(** With an empty key path the command logs, prints the usage and exits. *)
Lemma CertCmd_main_empty f w :
  CertCmd.privKeyFilePath f = "" ->
  CertCmd.main go f w =
  (Exit 1,
   {| ext := ext w;
      trace := trace w ++
        [EvLog LevelError "Private key output file path cannot be empty" [];
         EvUsage] |}).
Proof.
  intros He. unfold CertCmd.main. rewrite He. cbn [String.eqb].
  run_norm. reflexivity.
Qed.

Lemma KeyCmd_main_empty f w :
  KeyCmd.outputFilePath f = "" ->
  KeyCmd.main go f w =
  (Exit 1,
   {| ext := ext w;
      trace := trace w ++
        [EvLog LevelError "Output file path cannot be empty" []; EvUsage] |}).
Proof.
  intros He. unfold KeyCmd.main. rewrite He. cbn [String.eqb].
  run_norm. reflexivity.
Qed.

End CommandRuns.

(** ** The reference runtime honours the contracts *)

Lemma bytes_to_pos_to_bytes (p : positive) :
  Ref.bytes_to_pos (Ref.pos_to_bytes p) = Some p.
Proof. induction p as [p IH|p IH|]; simpl; [now rewrite IH ..|reflexivity]. Qed.

Lemma unseal_seal {A} `{Countable A} (a : A) : Ref.unseal (Ref.seal a) = Some a.
Proof.
  unfold Ref.unseal, Ref.seal, Ref.tag.
  rewrite bytes_to_pos_to_bytes. apply decode_encode.
Qed.

(** Only the bytes of a sealed value matter. *)
Lemma unseal_bytes {A} `{Countable A} (a : A) (der : slice) :
  slice_bytes der = slice_bytes (Ref.seal a) -> der = Ref.seal a.
Proof.
  unfold Ref.seal. destruct der as [b|]; cbn [slice_bytes].
  - intros ->. reflexivity.
  - discriminate.
Qed.

Lemma fields_cert_fields (c : x509.Certificate) :
  Ref.fields_cert (Ref.cert_fields c) = c.
Proof.
  destruct c as [sn [icn iorg] [scn sorg] nb na ku eku bcv ca dns ips [[cv x y]|]];
    reflexivity.
Qed.

Lemma Ref_parse_create t p pub priv s der s' :
  Ref.CreateCertificate t p pub priv s = (Ok der, s') ->
  Ref.ParseCertificate der = Ok (Ref.issue t p pub).
Proof.
  unfold Ref.CreateCertificate, Ref.ParseCertificate.
  destruct (x509.SerialNumber t <? 0); [discriminate|].
  intros H; inversion H; subst; clear H.
  now rewrite unseal_seal, fields_cert_fields.
Qed.

Lemma Ref_issuance : issuance_contract Ref.runtime.
Proof.
  exists (fun n => n). split; [reflexivity|]. split; [reflexivity|].
  intros t p pub priv s der s' c Hc Hp. cbn in Hc, Hp.
  rewrite (Ref_parse_create _ _ _ _ _ _ _ Hc) in Hp.
  inversion Hp; subst; clear Hp. cbn.
  repeat split; try reflexivity; intros; assumption.
Qed.

Lemma Ref_rand_Int : rand_Int_contract Ref.runtime.
Proof.
  intros max s n s'. cbn. unfold Ref.Int.
  destruct (Z.leb_spec max 0) as [Hle|Hlt]; [discriminate|].
  destruct (Ref.read_entropy _ s) as [[bs|e] s1]; [|discriminate].
  intros H; inversion H; subst; clear H.
  apply Z.mod_pos_bound; assumption.
Qed.

Lemma Ref_parse_nil : parse_nil_contract Ref.runtime.
Proof. intros c. cbn. discriminate. Qed.

Lemma Ref_keygen : keygen_contract Ref.runtime.
Proof.
  intros c s k s'. cbn. unfold Ref.GenerateKey.
  destruct (Ref.read_entropy 1 s) as [[bs|e] s1]; [|discriminate].
  intros H; inversion H; subst; reflexivity.
Qed.

Lemma Ref_key_codec : key_codec_contract Ref.runtime.
Proof.
  intros c s k s' der der'. cbn.
  unfold Ref.GenerateKey, Ref.MarshalECPrivateKey, Ref.ParseECPrivateKey.
  destruct (Ref.read_entropy 1 s) as [[bs|e] s1]; [|discriminate].
  intros Hk Hm Hb. inversion Hk; subst; clear Hk.
  inversion Hm; subst; clear Hm. cbn in Hb.
  apply unseal_bytes in Hb. subst der'. rewrite unseal_seal.
  eexists; split; reflexivity.
Qed.

Lemma Ref_file : file_contract Ref.runtime.
Proof.
  intros name data perm s s' data' s''. cbn.
  unfold Ref.WriteFile, Ref.ReadFile.
  destruct (String.eqb name ""); [discriminate|].
  intros Hw; inversion Hw; subst; clear Hw. cbn.
  rewrite lookup_insert_eq. intros Hr; inversion Hr; subst. reflexivity.
Qed.

(** ** The certificate builder *)

Section Builder.
Context {Ω : Type} (go : GoRuntime Ω).
Implicit Types w : World Ω.

(** The template that [NewCertificate] signs: validity window. *)
Lemma template_validity serialNumber now cn organization dns ips validFor
    isCA :
  let t := myx509.template serialNumber now cn organization dns ips
                           validFor isCA in
  x509.NotBefore t = now /\
  x509.NotAfter t = time.Add now validFor /\
  x509.NotAfter t - x509.NotBefore t = validFor /\
  (int64_range validFor ->
   time.Sub (x509.NotAfter t) (x509.NotBefore t) = validFor).
Proof.
  cbv zeta. unfold myx509.template, time.Add, time.Sub, int64_range.
  destruct isCA; cbn [x509.NotBefore x509.NotAfter];
    (repeat split; [lia|]); intros H;
    replace (now + validFor - now) with validFor by lia;
    (destruct (Z.ltb_spec validFor (- 2^63)); [lia|]);
    (destruct (Z.ltb_spec (2^63 - 1) validFor); [lia|]); reflexivity.
Qed.

(** The template that [NewCertificate] signs: subject and usages. *)
Lemma template_fields serialNumber now cn organization dns ips validFor isCA :
  let t := myx509.template serialNumber now cn organization dns ips
                           validFor isCA in
  x509.SerialNumber t = serialNumber /\
  x509.Subject t = {| pkix.CommonName := cn;
                      pkix.Organization := organization |} /\
  x509.KeyUsage_ t =
    (if isCA
     then Z.lor x509.KeyUsageDigitalSignature x509.KeyUsageCertSign
     else x509.KeyUsageDigitalSignature) /\
  x509.ExtKeyUsage_ t = [x509.ExtKeyUsageServerAuth;
                         x509.ExtKeyUsageClientAuth] /\
  x509.BasicConstraintsValid t = true /\
  x509.IsCA t = isCA /\
  0 <= x509.KeyUsage_ t < 2^9.
Proof.
  cbv zeta. unfold myx509.template.
  destruct isCA; cbn; repeat split; try reflexivity; try discriminate.
Qed.

(** C1. Every certificate produced by [NewCertificate] is self-signed: its
    DER bytes are what [x509.CreateCertificate] returns for a template that
    is its own parent, signed with the supplied private key, for the public
    half of that key; and the certificate parsed from them has issuer fields
    equal to its subject fields and embeds that public key. *)
Theorem NewCertificate_self_signed privKey cn organization dns ips validFor
    isCA w c w' :
  issuance_contract go ->
  myx509.NewCertificate go privKey cn organization dns ips validFor isCA w
    = (Ret (Ok c), w') ->
  exists t parsed ω1 ω2,
    x509_CreateCertificate go t t
      (ecdsa.Public (myx509.PrivateKey_Key privKey))
      (myx509.PrivateKey_Key privKey) ω1
      = (Ok (myx509.Certificate_DERBytes c), ω2) /\
    myx509.Certificate_Cert c = Some parsed /\
    x509_ParseCertificate go (myx509.Certificate_DERBytes c) = Ok parsed /\
    x509.Issuer parsed = x509.Subject parsed /\
    pkix.CommonName (x509.Subject parsed) = cn /\
    x509.PublicKey parsed
      = Some (ecdsa.Public (myx509.PrivateKey_Key privKey)).
Proof.
  intros (canon & Hcn & _ & Hiss) Hrun.
  destruct (NewCertificate_Ok_inv go _ _ _ _ _ _ _ _ _ _ Hrun)
    as (sn & ω1 & now & ω2 & der & ω3 & parsed & _ & _ & Hc & Hp & -> & _).
  destruct (Hiss _ _ _ _ _ _ _ _ Hc Hp) as (Hi & Hs & Hk & _).
  destruct (template_fields sn now cn organization dns ips validFor isCA)
    as (_ & Hsubj & _).
  eexists _, parsed, ω2, ω3. cbn.
  split; [exact Hc|]. split; [reflexivity|]. split; [exact Hp|].
  split; [congruence|]. split; [|exact Hk].
  rewrite Hs, Hcn, Hsubj. reflexivity.
Qed.

(** C4. The certificate built by [NewCertificate], both the template it
    signs and the certificate parsed back: key usage includes digital
    signature; it includes certificate signing exactly when [isCA] holds, and
    the CA flag equals [isCA]; the extended key usage is server and client
    authentication whatever [isCA] is; basic constraints are marked valid. *)
Theorem NewCertificate_usages privKey cn organization dns ips validFor isCA
    w c w' :
  issuance_contract go ->
  myx509.NewCertificate go privKey cn organization dns ips validFor isCA w
    = (Ret (Ok c), w') ->
  exists t parsed ω1 ω2,
    x509_CreateCertificate go t t
      (ecdsa.Public (myx509.PrivateKey_Key privKey))
      (myx509.PrivateKey_Key privKey) ω1
      = (Ok (myx509.Certificate_DERBytes c), ω2) /\
    myx509.Certificate_Cert c = Some parsed /\
    Forall (fun crt =>
      x509.has_usage (x509.KeyUsage_ crt) x509.KeyUsageDigitalSignature
        = true /\
      x509.has_usage (x509.KeyUsage_ crt) x509.KeyUsageCertSign = isCA /\
      x509.IsCA crt = isCA /\
      x509.ExtKeyUsage_ crt = [x509.ExtKeyUsageServerAuth;
                               x509.ExtKeyUsageClientAuth] /\
      x509.BasicConstraintsValid crt = true /\
      x509.KeyUsage_ crt =
        (if isCA
         then Z.lor x509.KeyUsageDigitalSignature x509.KeyUsageCertSign
         else x509.KeyUsageDigitalSignature))
      [t; parsed].
Proof.
  intros (canon & _ & _ & Hiss) Hrun.
  destruct (NewCertificate_Ok_inv go _ _ _ _ _ _ _ _ _ _ Hrun)
    as (sn & ω1 & now & ω2 & der & ω3 & parsed & _ & _ & Hc & Hp & -> & _).
  destruct (Hiss _ _ _ _ _ _ _ _ Hc Hp)
    as (_ & _ & _ & _ & Hku & Heku & Hbc).
  destruct (template_fields sn now cn organization dns ips validFor isCA)
    as (_ & _ & Htku & Hteku & Htbc & Htca & Hrange).
  specialize (Hku Hrange). destruct (Hbc Htbc) as [Hbcv Hca].
  eexists _, parsed, ω2, ω3. cbn [myx509.Certificate_DERBytes
    myx509.Certificate_Cert myx509.derBytes myx509.cert].
  split; [exact Hc|]. split; [reflexivity|].
  assert (Hbits : forall ku,
    ku = (if isCA
          then Z.lor x509.KeyUsageDigitalSignature x509.KeyUsageCertSign
          else x509.KeyUsageDigitalSignature) ->
    x509.has_usage ku x509.KeyUsageDigitalSignature = true /\
    x509.has_usage ku x509.KeyUsageCertSign = isCA).
  { intros ku ->. destruct isCA; split; reflexivity. }
  rewrite Htku in Hku. rewrite Hteku in Heku. rewrite Htca in Hca.
  constructor; [|constructor; [|constructor]].
  - destruct (Hbits _ Htku) as [Hds Hcs].
    split; [exact Hds|]. split; [exact Hcs|]. split; [exact Htca|].
    split; [exact Hteku|]. split; [exact Htbc | exact Htku].
  - destruct (Hbits _ Hku) as [Hds Hcs].
    split; [exact Hds|]. split; [exact Hcs|]. split; [exact Hca|].
    split; [exact Heku|]. split; [exact Hbcv | exact Hku].
Qed.

(** C3, as the code has it.  On success the serial number is the value that
    [rand.Int] returned for the bound [1 << 128]: an integer in the range
    from 0 (included) to 2^128; when [rand.Int] fails, [NewCertificate]
    returns the error wrapped as "failed to generate serial number" and no
    certificate, without any further call. *)
Theorem NewCertificate_serial_number privKey cn organization dns ips validFor
    isCA w :
  rand_Int_contract go ->
  issuance_contract go ->
  (forall c w',
     myx509.NewCertificate go privKey cn organization dns ips validFor isCA w
       = (Ret (Ok c), w') ->
     exists serialNumber ω1 parsed,
       rand_Int go (Z.shiftl 1 128) (ext w) = (Ok serialNumber, ω1) /\
       0 <= serialNumber < 2^128 /\
       myx509.Certificate_Cert c = Some parsed /\
       x509.SerialNumber parsed = serialNumber) /\
  (forall err ω1,
     rand_Int go (Z.shiftl 1 128) (ext w) = (Err err, ω1) ->
     myx509.NewCertificate go privKey cn organization dns ips validFor isCA w
       = (Ret (Err (fmt_Errorf_w "failed to generate serial number" err)),
          {| ext := ω1;
             trace := trace w ++
               [EvRandInt (Z.shiftl 1 128);
                EvLog LevelError "Failed to generate serial number"
                      [("error", LError err)]] |})).
Proof.
  intros Hrand (canon & _ & _ & Hiss). split.
  - intros c w' Hrun.
    destruct (NewCertificate_Ok_inv go _ _ _ _ _ _ _ _ _ _ Hrun)
      as (sn & ω1 & now & ω2 & der & ω3 & parsed & Hr & _ & Hc & Hp & -> & _).
    destruct (Hiss _ _ _ _ _ _ _ _ Hc Hp) as (_ & _ & _ & Hsn & _).
    destruct (template_fields sn now cn organization dns ips validFor isCA)
      as (Htsn & _).
    exists sn, ω1, parsed. split; [exact Hr|].
    split; [exact (Hrand _ _ _ _ Hr)|]. split; [reflexivity | congruence].
  - intros err ω1 Hr. rewrite NewCertificate_run.
    change myx509.serialNumberLimit with (Z.shiftl 1 128). now rewrite Hr.
Qed.

(** C9. A certificate returned by [NewCertificate] stores DER bytes that
    parse to exactly the stored certificate, and its DER bytes are not
    [nil], so [SaveToFile] never answers it with the precondition error; on
    any certificate whose DER bytes are [nil], [SaveToFile] returns that
    error and leaves the world as it was: no call, no write. *)
Theorem Certificate_der_consistent privKey cn organization dns ips validFor
    isCA w c w' :
  parse_nil_contract go ->
  myx509.NewCertificate go privKey cn organization dns ips validFor isCA w
    = (Ret (Ok c), w') ->
  (exists parsed,
     myx509.Certificate_Cert c = Some parsed /\
     x509_ParseCertificate go (myx509.Certificate_DERBytes c) = Ok parsed) /\
  myx509.Certificate_DERBytes c <> None /\
  (forall filePath w1,
     fst (myx509.Certificate_SaveToFile go c filePath w1) <>
     Ret (Some (fmt_Errorf "certificate DER bytes are nil, cannot save"))) /\
  (forall c0 filePath w1,
     myx509.Certificate_DERBytes c0 = None ->
     myx509.Certificate_SaveToFile go c0 filePath w1 =
     (Ret (Some (fmt_Errorf "certificate DER bytes are nil, cannot save")),
      w1)).
Proof.
  intros Hnil Hrun.
  destruct (NewCertificate_Ok_inv go _ _ _ _ _ _ _ _ _ _ Hrun)
    as (sn & ω1 & now & ω2 & der & ω3 & parsed & _ & _ & _ & Hp & -> & _).
  cbn [myx509.Certificate_DERBytes myx509.Certificate_Cert myx509.derBytes
       myx509.cert].
  assert (Hder : der <> None).
  { intros ->. exact (Hnil _ Hp). }
  split; [exists parsed; split; [reflexivity | exact Hp]|].
  split; [exact Hder|]. split.
  - intros filePath w1. rewrite Certificate_SaveToFile_run.
    cbn [myx509.derBytes].
    destruct der as [b|]; [|contradiction].
    destruct (os_WriteFile go _ _ _ _) as [[err|] ω]; cbn; discriminate.
  - intros c0 filePath w1 H0. rewrite Certificate_SaveToFile_run.
    unfold myx509.Certificate_DERBytes in H0. now rewrite H0.
Qed.

End Builder.

(** ** Persistence *)

Section Persistence.
Context {Ω : Type} (go : GoRuntime Ω).
Implicit Types w : World Ω.

(** C5. A key made by [NewPrivateKey], saved with [SaveToFile] and loaded
    again from the same path with [LoadPrivateKeyFromFile]: the load yields a
    key on the curve of the original, P-256, with the original's public
    key. *)
Theorem save_load_round_trip w0 p w1 filePath w2 data ω :
  keygen_contract go ->
  key_codec_contract go ->
  file_contract go ->
  myx509.NewPrivateKey go w0 = (Ret (Ok p), w1) ->
  myx509.PrivateKey_SaveToFile go p filePath w1 = (Ret None, w2) ->
  os_ReadFile go filePath (ext w2) = (Ok data, ω) ->
  exists p' w3,
    myx509.LoadPrivateKeyFromFile go filePath w2 = (Ret (Ok p'), w3) /\
    ecdsa.Curve (ecdsa.Public (myx509.PrivateKey_Key p)) = elliptic.P256 /\
    ecdsa.Curve (ecdsa.Public (myx509.PrivateKey_Key p')) = elliptic.P256 /\
    ecdsa.Public (myx509.PrivateKey_Key p')
      = ecdsa.Public (myx509.PrivateKey_Key p).
Proof.
  intros Hgen Hcodec Hfile Hnew Hsave Hread.
  rewrite NewPrivateKey_run in Hnew.
  destruct (ecdsa_GenerateKey go _ _) as [[k|err] ω1] eqn:Hk;
    [|discriminate].
  inversion Hnew; subst; clear Hnew.
  rewrite PrivateKey_SaveToFile_run in Hsave. cbn [myx509.key ext] in Hsave.
  destruct (x509_MarshalECPrivateKey go k) as [der|err] eqn:Hm;
    [|discriminate].
  destruct (os_WriteFile go _ _ _ _) as [[err|] ω2] eqn:Hw; [discriminate|].
  inversion Hsave; subst; clear Hsave. cbn [ext] in Hread.
  pose proof (Hfile _ _ _ _ _ _ _ Hw Hread) as Hbytes.
  destruct (Hcodec _ _ _ _ _ _ Hk Hm Hbytes) as (k' & Hparse & Hpub).
  pose proof (Hgen _ _ _ _ Hk) as Hcurve.
  rewrite LoadPrivateKeyFromFile_run. cbn [ext]. rewrite Hread, Hparse.
  eexists _, _. split; [reflexivity|]. cbn [myx509.PrivateKey_Key myx509.key].
  split; [exact Hcurve|]. split; [congruence | exact Hpub].
Qed.

(** C7. Every file that [PrivateKey.SaveToFile] writes is written at the
    path given with mode 0600, read and write for the owner only, and a save
    that succeeds wrote the encoded key; every file that
    [Certificate.SaveToFile] writes is written with mode 0644, read and write
    for the owner and read for group and others, and a save that succeeds
    wrote the certificate's DER bytes. *)
Theorem SaveToFile_permissions (p : myx509.PrivateKey)
    (c : myx509.Certificate) (filePath : string) w :
  (exists evs,
     trace (snd (myx509.PrivateKey_SaveToFile go p filePath w))
       = trace w ++ evs /\
     Forall (fun wr => fst (fst wr) = filePath /\ snd wr = perm_0600)
            (writes evs) /\
     (fst (myx509.PrivateKey_SaveToFile go p filePath w) = Ret None ->
      exists der,
        x509_MarshalECPrivateKey go (myx509.PrivateKey_Key p) = Ok der /\
        writes evs = [(filePath, der, perm_0600)])) /\
  (exists evs,
     trace (snd (myx509.Certificate_SaveToFile go c filePath w))
       = trace w ++ evs /\
     Forall (fun wr => fst (fst wr) = filePath /\ snd wr = perm_0644)
            (writes evs) /\
     (fst (myx509.Certificate_SaveToFile go c filePath w) = Ret None ->
      writes evs = [(filePath, myx509.Certificate_DERBytes c, perm_0644)])) /\
  perm_0600 = 0x180 /\ perm_string perm_0600 = "rw-------" /\
  perm_0644 = 0x1a4 /\ perm_string perm_0644 = "rw-r--r--".
Proof.
  split; [|split; [|repeat split]].
  - rewrite PrivateKey_SaveToFile_run.
    unfold myx509.PrivateKey_Key.
    destruct (x509_MarshalECPrivateKey go _) as [der|err].
    + destruct (os_WriteFile go _ _ _ _) as [[err|] ω1]; cbn [fst snd trace];
        eexists; (split; [reflexivity|]); cbn [writes];
        (split; [repeat constructor|]); intros H; try discriminate H.
      exists der. split; reflexivity.
    + cbn [fst snd trace]. eexists. split; [reflexivity|]. cbn [writes].
      split; [constructor | discriminate].
  - rewrite Certificate_SaveToFile_run. unfold myx509.Certificate_DERBytes.
    destruct (myx509.derBytes c) as [b|].
    + destruct (os_WriteFile go _ _ _ _) as [[err|] ω1]; cbn [fst snd trace];
        eexists; (split; [reflexivity|]); cbn [writes];
        (split; [repeat constructor|]); intros H; try discriminate H.
      reflexivity.
    + cbn [fst snd]. exists []. rewrite app_nil_r.
      split; [reflexivity|]. split; [constructor | discriminate].
Qed.

End Persistence.

(** ** The commands *)

Section Commands.
Context {Ω : Type} (go : GoRuntime Ω).
Implicit Types w : World Ω.

(** The certificate path derived from a key path. *)
Lemma deriveCertFilePath_default (keyPath : string) :
  exists base,
    keyPath = base +:+ filepath.Ext keyPath /\
    CertCmd.deriveCertFilePath keyPath "" = base +:+ ".crt".
Proof.
  destruct (Ext_suffix keyPath) as [base Hbase]. exists base.
  split; [exact Hbase|]. unfold CertCmd.deriveCertFilePath. cbn [String.eqb].
  rewrite Hbase at 1. now rewrite TrimSuffix_append.
Qed.

(** The files written by a successful run. *)
Lemma writes_success_trace f k keyDer t certDer :
  writes (success_trace f k keyDer t certDer) =
  [(CertCmd.privKeyFilePath f, keyDer, perm_0600);
   (CertCmd.deriveCertFilePath (CertCmd.privKeyFilePath f)
      (CertCmd.certFilePath f), certDer, perm_0644)].
Proof. reflexivity. Qed.

(** C6. With a non-empty key path and no [-cert], the certificate path is
    the key path with its extension replaced by ".crt" ("out.key" gives
    "out.crt"); a run that completes writes the certificate there, and the
    certificate, as signed and as parsed back, has the [-cn] value as common
    name and the [-org] value as its only organization. *)
Theorem main_default_cert_path f w w' :
  issuance_contract go ->
  CertCmd.privKeyFilePath f <> "" ->
  CertCmd.certFilePath f = "" ->
  CertCmd.main go f w = (Ret tt, w') ->
  exists base k keyDer t certDer parsed,
    CertCmd.privKeyFilePath f = base +:+ filepath.Ext (CertCmd.privKeyFilePath f) /\
    is_extension (filepath.Ext (CertCmd.privKeyFilePath f)) /\
    CertCmd.deriveCertFilePath "out.key" "" = "out.crt" /\
    trace w' = trace w ++ success_trace f k keyDer t certDer /\
    writes (success_trace f k keyDer t certDer) =
      [(CertCmd.privKeyFilePath f, keyDer, perm_0600);
       (base +:+ ".crt", certDer, perm_0644)] /\
    x509_ParseCertificate go certDer = Ok parsed /\
    Forall (fun crt =>
      x509.Subject crt = {| pkix.CommonName := CertCmd.commonName f;
                            pkix.Organization := [CertCmd.org f] |})
      [t; parsed].
Proof.
  intros (canon & Hcn & Horg & Hiss) Hne Hcert Hrun.
  destruct (CertCmd_main_Ok_inv go f w w' Hrun)
    as (k & ω1 & keyDer & ω2 & sn & ω3 & now & ω4 & certDer & ω5 & parsed & H).
  cbv zeta in H.
  destruct H as (_ & _ & _ & _ & _ & _ & Hc & Hp & _ & _ & Htr).
  destruct (deriveCertFilePath_default (CertCmd.privKeyFilePath f))
    as (base & Hbase & Hderive).
  destruct (Hiss _ _ _ _ _ _ _ _ Hc Hp) as (_ & Hs & _).
  eexists base, k, keyDer, _, certDer, parsed.
  split; [exact Hbase|]. split; [apply Ext_is_extension|].
  split; [reflexivity|]. split; [exact Htr|].
  split; [rewrite writes_success_trace, Hcert, Hderive; reflexivity|].
  split; [exact Hp|].
  constructor; [reflexivity|]. constructor; [|constructor].
  rewrite Hs. cbn [x509.Subject myx509.template].
  specialize (Hcn {| pkix.CommonName := CertCmd.commonName f;
                     pkix.Organization := [CertCmd.org f] |}).
  specialize (Horg {| pkix.CommonName := CertCmd.commonName f;
                      pkix.Organization := [CertCmd.org f] |}
                   (Nat.le_refl 1)).
  destruct (canon _) as [ccn corg]. cbn in Hcn, Horg. now subst.
Qed.

(** C8. With an empty output path, either command logs an error, prints the
    usage and exits with status 1; it makes no other call, so no key is
    generated and nothing outside the program changes. *)
Theorem empty_path_exits (fk : KeyCmd.Flags) (fc : CertCmd.Flags) w :
  KeyCmd.outputFilePath fk = "" ->
  CertCmd.privKeyFilePath fc = "" ->
  Forall (fun run : Outcome unit * World Ω =>
    exit_status (fst run) = 1 /\
    ext (snd run) = ext w /\
    exists msg,
      trace (snd run) = trace w ++ [EvLog LevelError msg []; EvUsage] /\
      forallb (fun ev => negb (is_crypto ev))
              [EvLog LevelError msg []; EvUsage] = true)
    [KeyCmd.main go fk w; CertCmd.main go fc w].
Proof.
  intros Hk Hc.
  rewrite (KeyCmd_main_empty go fk w Hk), (CertCmd_main_empty go fc w Hc).
  repeat constructor; eexists; split; reflexivity.
Qed.

(** C10. With a key path whose extension is ".crt" and no [-cert], the
    derived certificate path is the key path itself: a run that completes
    writes the key and then the certificate to that one path, and what the
    file holds afterwards is the certificate. *)
Theorem cert_overwrites_key f w w' :
  file_contract go ->
  filepath.Ext (CertCmd.privKeyFilePath f) = ".crt" ->
  CertCmd.certFilePath f = "" ->
  CertCmd.main go f w = (Ret tt, w') ->
  CertCmd.deriveCertFilePath (CertCmd.privKeyFilePath f) (CertCmd.certFilePath f)
    = CertCmd.privKeyFilePath f /\
  exists k keyDer t certDer ω1 ω2,
    trace w' = trace w ++ success_trace f k keyDer t certDer /\
    writes (success_trace f k keyDer t certDer) =
      [(CertCmd.privKeyFilePath f, keyDer, perm_0600);
       (CertCmd.privKeyFilePath f, certDer, perm_0644)] /\
    x509_MarshalECPrivateKey go k = Ok keyDer /\
    x509_CreateCertificate go t t (ecdsa.Public k) k ω1 = (Ok certDer, ω2) /\
    os_WriteFile go (CertCmd.privKeyFilePath f) certDer perm_0644 ω2
      = (None, ext w') /\
    (forall data ω,
       os_ReadFile go (CertCmd.privKeyFilePath f) (ext w') = (Ok data, ω) ->
       slice_bytes data = slice_bytes certDer).
Proof.
  intros Hfile Hext Hcert Hrun.
  assert (Hsame : CertCmd.deriveCertFilePath (CertCmd.privKeyFilePath f)
                    (CertCmd.certFilePath f) = CertCmd.privKeyFilePath f).
  { destruct (deriveCertFilePath_default (CertCmd.privKeyFilePath f))
      as (base & Hbase & Hderive).
    rewrite Hext in Hbase. rewrite Hcert, Hderive. symmetry; exact Hbase. }
  split; [exact Hsame|].
  destruct (CertCmd_main_Ok_inv go f w w' Hrun)
    as (k & ω1 & keyDer & ω2 & sn & ω3 & now & ω4 & certDer & ω5 & parsed & H).
  cbv zeta in H.
  destruct H as (_ & _ & Hm & _ & _ & _ & Hc & _ & _ & Hw & Htr).
  rewrite Hsame in Hw.
  eexists k, keyDer, _, certDer, ω4, ω5.
  split; [exact Htr|].
  split; [rewrite writes_success_trace, Hsame; reflexivity|].
  split; [exact Hm|]. split; [exact Hc|]. split; [exact Hw|].
  intros data ω Hr. exact (Hfile _ _ _ _ _ _ _ Hw Hr).
Qed.

(** C2, at [-days 106752].  The product of line 64 leaves the [int64]
    range and wraps: the command asks [NewCertificate] for a negative
    validity, and the certificate it signs expires before it begins, instead
    of 106752 days after. *)
Theorem validity_days_overflow f w w' :
  CertCmd.validityDays f = 106752 ->
  CertCmd.main go f w = (Ret tt, w') ->
  exists k keyDer t certDer,
    trace w' = trace w ++ success_trace f k keyDer t certDer /\
    x509.NotAfter t - x509.NotBefore t
      = CertCmd.validFor (CertCmd.validityDays f) /\
    CertCmd.validFor (CertCmd.validityDays f) = -9223371273709551616 /\
    CertCmd.validityDays f * (24 * time.Hour) = 9223372800000000000 /\
    x509.NotAfter t < x509.NotBefore t.
Proof.
  intros Hdays Hrun.
  destruct (CertCmd_main_Ok_inv go f w w' Hrun)
    as (k & ω1 & keyDer & ω2 & sn & ω3 & now & ω4 & certDer & ω5 & parsed & H).
  cbv zeta in H. destruct H as (_ & _ & _ & _ & _ & _ & _ & _ & _ & _ & Htr).
  destruct (template_validity sn now (CertCmd.commonName f) [CertCmd.org f]
              [] [] (CertCmd.validFor (CertCmd.validityDays f)) false)
    as (_ & _ & Hdiff & _).
  assert (Hv : CertCmd.validFor (CertCmd.validityDays f)
               = -9223371273709551616)
    by (rewrite Hdays; vm_compute; reflexivity).
  eexists k, keyDer, _, certDer. split; [exact Htr|].
  split; [exact Hdiff|]. split; [exact Hv|].
  split; [rewrite Hdays; vm_compute; reflexivity|].
  assert (Hlt : forall a b d : Z,
            a - b = d -> d = -9223371273709551616 -> a < b)
    by (intros; lia).
  exact (Hlt _ _ _ Hdiff Hv).
Qed.

End Commands.

(** ** Runs on the reference runtime *)

Lemma run_eq {A B} (run : A * B) (a : A) :
  fst run = a -> run = (a, snd run).
Proof. destruct run; cbn; congruence. Qed.

(** Runs the program on the left of the goal [fst run = _ /\ _] and keeps
    the equation [run = (_, snd run)] as [Hrun]. *)
Ltac compute_run Hrun :=
  match goal with
  | |- fst ?run = _ /\ _ =>
      let r := eval vm_compute in (fst run) in
      assert (Hrun : run = (r, snd run))
        by (apply run_eq; reflexivity);
      split; [exact (f_equal fst Hrun)|]
  end.

(** A certificate built on the reference runtime is self-signed. *)
Lemma NewCertificate_self_signed_witness :
  exists c,
    fst (myx509.NewCertificate Ref.runtime Ref.sample_key "example.com"
           ["Example"] [] [] (CertCmd.validFor 30) false
           (Ref.boot (Ref.serial_entropy Byte.x2a) 1000)) = Ret (Ok c) /\
    exists parsed,
      myx509.Certificate_Cert c = Some parsed /\
      x509.Issuer parsed = x509.Subject parsed /\
      x509.PublicKey parsed
        = Some (ecdsa.Public (myx509.PrivateKey_Key Ref.sample_key)).
Proof.
  eexists. compute_run Hrun.
  destruct (NewCertificate_self_signed Ref.runtime _ _ _ _ _ _ _ _ _ _
              Ref_issuance Hrun)
    as (t & parsed & ω1 & ω2 & _ & Hcert & _ & Hiss & _ & Hpub).
  exists parsed. split; [exact Hcert|]. split; [exact Hiss | exact Hpub].
Defined.

(** The same for a call [f args] whose result is needed as a whole. *)
Ltac compute_call H call :=
  let r := eval vm_compute in (fst call) in
  assert (H : call = (r, snd call)) by (apply run_eq; reflexivity).

(** A CA certificate built on the reference runtime. *)
Lemma NewCertificate_usages_witness :
  exists c,
    fst (myx509.NewCertificate Ref.runtime Ref.sample_key "Example Root"
           ["Example"] [] [] (CertCmd.validFor 3650) true
           (Ref.boot (Ref.serial_entropy Byte.x2a) 1000)) = Ret (Ok c) /\
    exists parsed,
      myx509.Certificate_Cert c = Some parsed /\
      x509.has_usage (x509.KeyUsage_ parsed) x509.KeyUsageDigitalSignature
        = true /\
      x509.has_usage (x509.KeyUsage_ parsed) x509.KeyUsageCertSign = true /\
      x509.IsCA parsed = true /\
      x509.ExtKeyUsage_ parsed = [x509.ExtKeyUsageServerAuth;
                                  x509.ExtKeyUsageClientAuth] /\
      x509.BasicConstraintsValid parsed = true.
Proof.
  eexists. compute_run Hrun.
  destruct (NewCertificate_usages Ref.runtime _ _ _ _ _ _ _ _ _ _
              Ref_issuance Hrun)
    as (t & parsed & ω1 & ω2 & _ & Hcert & Hall).
  apply Forall_cons_iff in Hall. destruct Hall as [_ Hall].
  apply Forall_cons_iff in Hall.
  destruct Hall as [(Hds & Hcs & Hca & Heku & Hbcv & _) _].
  exists parsed. repeat split; assumption.
Defined.

(** A serial number drawn on the reference runtime, and the error when the
    entropy has run out. *)
Lemma NewCertificate_serial_number_witness :
  (exists c,
     fst (myx509.NewCertificate Ref.runtime Ref.sample_key "example.com"
            ["Example"] [] [] (CertCmd.validFor 30) false
            (Ref.boot (Ref.serial_entropy Byte.x2a) 1000)) = Ret (Ok c) /\
     exists parsed,
       myx509.Certificate_Cert c = Some parsed /\
       0 <= x509.SerialNumber parsed < 2^128) /\
  fst (myx509.NewCertificate Ref.runtime Ref.sample_key "example.com"
         ["Example"] [] [] (CertCmd.validFor 30) false (Ref.boot [] 1000))
  = Ret (Err (fmt_Errorf_w "failed to generate serial number" Ref.EOF)).
Proof.
  split.
  - eexists. compute_run Hrun.
    destruct (proj1 (NewCertificate_serial_number Ref.runtime Ref.sample_key
                       "example.com" ["Example"] [] [] (CertCmd.validFor 30)
                       false _ Ref_rand_Int Ref_issuance) _ _ Hrun)
      as (sn & ω1 & parsed & _ & Hrange & Hcert & Hsn).
    exists parsed. split; [exact Hcert|]. rewrite Hsn. exact Hrange.
  - rewrite (proj2 (NewCertificate_serial_number Ref.runtime Ref.sample_key
                      "example.com" ["Example"] [] [] (CertCmd.validFor 30)
                      false (Ref.boot [] 1000) Ref_rand_Int Ref_issuance)
               Ref.EOF (Ref.set_entropy [] (ext (Ref.boot [] 1000)))
               eq_refl).
    reflexivity.
Defined.

(** The DER bytes of a certificate built on the reference runtime. *)
Lemma Certificate_der_consistent_witness :
  exists c,
    fst (myx509.NewCertificate Ref.runtime Ref.sample_key "example.com"
           ["Example"] [] [] (CertCmd.validFor 30) false
           (Ref.boot (Ref.serial_entropy Byte.x2a) 1000)) = Ret (Ok c) /\
    myx509.Certificate_DERBytes c <> None /\
    exists parsed,
      myx509.Certificate_Cert c = Some parsed /\
      x509_ParseCertificate Ref.runtime (myx509.Certificate_DERBytes c)
        = Ok parsed.
Proof.
  eexists. compute_run Hrun.
  destruct (Certificate_der_consistent Ref.runtime _ _ _ _ _ _ _ _ _ _
              Ref_parse_nil Hrun)
    as ((parsed & Hcert & Hparse) & Hder & _).
  split; [exact Hder|]. exists parsed. split; [exact Hcert | exact Hparse].
Defined.

(** C3 as stated fails: with sixteen zero bytes of entropy, [rand.Int]
    returns 0, which the contract of [rand.Int] allows, and the certificate
    is issued with serial number 0, which is not positive. *)
Lemma serial_number_zero_counterexample :
  rand_Int_contract Ref.runtime /\
  issuance_contract Ref.runtime /\
  exists c parsed,
    fst (myx509.NewCertificate Ref.runtime Ref.sample_key "example.com"
           ["Example"] [] [] (CertCmd.validFor 30) false
           (Ref.boot (Ref.serial_entropy Byte.x00) 1000)) = Ret (Ok c) /\
    myx509.Certificate_Cert c = Some parsed /\
    x509.SerialNumber parsed = 0 /\
    ~ 0 < x509.SerialNumber parsed.
Proof.
  split; [exact Ref_rand_Int|]. split; [exact Ref_issuance|].
  eexists _, _. compute_run Hrun.
  split; [reflexivity|]. split; [reflexivity|]. cbn. lia.
Qed.

(** Generate, save and load a key on the reference runtime. *)
Lemma save_load_round_trip_witness :
  exists p,
    fst (myx509.NewPrivateKey Ref.runtime Ref.sample_world) = Ret (Ok p) /\
    fst (myx509.PrivateKey_SaveToFile Ref.runtime p "private_key.der"
           (snd (myx509.NewPrivateKey Ref.runtime Ref.sample_world)))
      = Ret None /\
    exists p',
      fst (myx509.LoadPrivateKeyFromFile Ref.runtime "private_key.der"
             (snd (myx509.PrivateKey_SaveToFile Ref.runtime p "private_key.der"
                     (snd (myx509.NewPrivateKey Ref.runtime Ref.sample_world)))))
        = Ret (Ok p') /\
      ecdsa.Curve (ecdsa.Public (myx509.PrivateKey_Key p')) = elliptic.P256 /\
      ecdsa.Public (myx509.PrivateKey_Key p')
        = ecdsa.Public (myx509.PrivateKey_Key p).
Proof.
  eexists. compute_run Hnew. compute_run Hsave.
  match type of Hsave with
  | _ = (_, ?w2) =>
      compute_call Hread (os_ReadFile Ref.runtime "private_key.der" (ext w2))
  end.
  destruct (save_load_round_trip Ref.runtime _ _ _ _ _ _ _
              Ref_keygen Ref_key_codec Ref_file Hnew Hsave Hread)
    as (p' & w3 & Hload & _ & Hcurve & Hpub).
  exists p'. split; [exact (f_equal fst Hload)|].
  split; [exact Hcurve | exact Hpub].
Defined.

(** [-key out.key -cn example.com -org Example -days 30] on the reference
    runtime. *)
Lemma main_default_cert_path_witness :
  fst (CertCmd.main Ref.runtime (Ref.sample_flags "out.key" 30)
         Ref.sample_world) = Ret tt /\
  exists base keyDer certDer parsed,
    "out.key" = base +:+ filepath.Ext "out.key" /\
    writes (trace (snd (CertCmd.main Ref.runtime
                          (Ref.sample_flags "out.key" 30) Ref.sample_world)))
      = [("out.key", keyDer, perm_0600); (base +:+ ".crt", certDer, perm_0644)] /\
    x509_ParseCertificate Ref.runtime certDer = Ok parsed /\
    x509.Subject parsed = {| pkix.CommonName := "example.com";
                             pkix.Organization := ["Example"] |}.
Proof.
  compute_run Hrun.
  destruct (main_default_cert_path Ref.runtime
              (Ref.sample_flags "out.key" 30) Ref.sample_world _ Ref_issuance
              ltac:(discriminate) eq_refl Hrun)
    as (base & k & keyDer & t & certDer & parsed
        & Hbase & _ & _ & Htr & Hwr & Hparse & Hall).
  apply Forall_cons_iff in Hall. destruct Hall as [_ Hall].
  apply Forall_cons_iff in Hall. destruct Hall as [Hsubj _].
  exists base, keyDer, certDer, parsed.
  split; [exact Hbase|]. split; [rewrite Htr; exact Hwr|].
  split; [exact Hparse | exact Hsubj].
Defined.

(** Both commands with an empty path on the reference runtime. *)
Lemma empty_path_exits_witness :
  Forall (fun run : Outcome unit * World Ref.State =>
    exit_status (fst run) = 1 /\
    ext (snd run) = ext Ref.sample_world /\
    exists msg,
      trace (snd run)
        = trace Ref.sample_world ++ [EvLog LevelError msg []; EvUsage] /\
      forallb (fun ev => negb (is_crypto ev))
              [EvLog LevelError msg []; EvUsage] = true)
    [KeyCmd.main Ref.runtime {| KeyCmd.outputFilePath := "" |}
       Ref.sample_world;
     CertCmd.main Ref.runtime (Ref.sample_flags "" 30) Ref.sample_world].
Proof.
  exact (empty_path_exits Ref.runtime {| KeyCmd.outputFilePath := "" |}
           (Ref.sample_flags "" 30) Ref.sample_world eq_refl eq_refl).
Defined.

(** [-key server.crt] on the reference runtime: one file, holding the
    certificate. *)
Lemma cert_overwrites_key_witness :
  fst (CertCmd.main Ref.runtime (Ref.sample_flags "server.crt" 30)
         Ref.sample_world) = Ret tt /\
  CertCmd.deriveCertFilePath "server.crt" "" = "server.crt" /\
  exists keyDer certDer data,
    writes (trace (snd (CertCmd.main Ref.runtime
                          (Ref.sample_flags "server.crt" 30)
                          Ref.sample_world)))
      = [("server.crt", keyDer, perm_0600);
         ("server.crt", certDer, perm_0644)] /\
    fst (os_ReadFile Ref.runtime "server.crt"
           (ext (snd (CertCmd.main Ref.runtime
                        (Ref.sample_flags "server.crt" 30)
                        Ref.sample_world)))) = Ok data /\
    slice_bytes data = slice_bytes certDer.
Proof.
  compute_run Hrun.
  match type of Hrun with
  | _ = (_, ?w') =>
      compute_call Hread (os_ReadFile Ref.runtime "server.crt" (ext w'))
  end.
  destruct (cert_overwrites_key Ref.runtime
              (Ref.sample_flags "server.crt" 30) Ref.sample_world _
              Ref_file eq_refl eq_refl Hrun)
    as (Hsame & k & keyDer & t & certDer & ω1 & ω2
        & Htr & Hwr & _ & _ & _ & Hfinal).
  split; [exact Hsame|].
  eexists keyDer, certDer, _.
  split; [rewrite Htr; exact Hwr|].
  split; [exact (f_equal fst Hread) | exact (Hfinal _ _ Hread)].
Defined.

(** [-days 106752] on the reference runtime. *)
Lemma validity_days_overflow_witness :
  fst (CertCmd.main Ref.runtime (Ref.sample_flags "out.key" 106752)
         Ref.sample_world) = Ret tt /\
  exists k keyDer t certDer,
    trace (snd (CertCmd.main Ref.runtime (Ref.sample_flags "out.key" 106752)
                  Ref.sample_world))
      = success_trace (Ref.sample_flags "out.key" 106752) k keyDer t certDer /\
    x509.NotAfter t - x509.NotBefore t = -9223371273709551616 /\
    x509.NotAfter t < x509.NotBefore t.
Proof.
  compute_run Hrun.
  destruct (validity_days_overflow Ref.runtime
              (Ref.sample_flags "out.key" 106752) Ref.sample_world _
              eq_refl Hrun)
    as (k & keyDer & t & certDer & Htr & Hdiff & Hv & _ & Hlt).
  exists k, keyDer, t, certDer.
  split; [exact Htr|]. split; [congruence | exact Hlt].
Defined.

(** * Further properties *)

(** [errors.Unwrap]: the error that [fmt.Errorf] wrapped with [%w]. *)
Definition errors_Unwrap (e : error) : option error :=
  match e with
  | fmt_Errorf_w _ cause => Some cause
  | _ => None
  end.

(** The calls made by a run that started in [w]: what its trace adds. *)
Definition new_events {Ω} (w w' : World Ω) : list Event :=
  skipn (List.length (trace w)) (trace w').

Section MoreContracts.
Context {Ω : Type} (go : GoRuntime Ω).

(** [x509.ParseCertificate] reads the bytes of its argument: a [nil] slice
    and an empty one are the same input. *)
Definition parse_bytes_contract : Prop :=
  forall der der',
    slice_bytes der = slice_bytes der' ->
    x509_ParseCertificate go der = x509_ParseCertificate go der'.

End MoreContracts.

Lemma new_events_app {Ω} (w w' : World Ω) evs :
  trace w' = trace w ++ evs -> new_events w w' = evs.
Proof.
  intros H. unfold new_events. rewrite H.
  rewrite skipn_app, skipn_all, Nat.sub_diag. reflexivity.
Qed.

(** ** Paths *)

Lemma append_inj_l (base a b : string) : base +:+ a = base +:+ b -> a = b.
Proof.
  induction base as [|c base IH]; simpl; [trivial|].
  intros H. injection H as H. exact (IH H).
Qed.

Lemma list_ascii_of_string_app (a b : string) :
  list_ascii_of_string (a +:+ b)
  = list_ascii_of_string a ++ list_ascii_of_string b.
Proof. induction a as [|c a IH]; simpl; [reflexivity | now rewrite IH]. Qed.

Lemma Ext_append_crt (base : string) :
  filepath.Ext (base +:+ ".crt") = ".crt".
Proof.
  unfold filepath.Ext.
  rewrite list_ascii_of_string_app, rev_app_distr. reflexivity.
Qed.

(** X8. The certificate path of the key and certificate command: a
    non-empty [-cert] is used as given; a derived path is never empty and has
    the extension ".crt"; and it is the key path itself exactly when the key
    path has the extension ".crt". *)
Theorem deriveCertFilePath_cases (keyPath certPath : string) :
  (certPath <> "" -> CertCmd.deriveCertFilePath keyPath certPath = certPath) /\
  CertCmd.deriveCertFilePath keyPath "" <> "" /\
  filepath.Ext (CertCmd.deriveCertFilePath keyPath "") = ".crt" /\
  (CertCmd.deriveCertFilePath keyPath "" = keyPath <->
   filepath.Ext keyPath = ".crt").
Proof.
  destruct (deriveCertFilePath_default keyPath) as (base & Hbase & Hderive).
  split; [|split; [|split]].
  - intros Hne. unfold CertCmd.deriveCertFilePath.
    destruct (String.eqb_spec certPath ""); [contradiction | reflexivity].
  - rewrite Hderive. destruct base; discriminate.
  - rewrite Hderive. apply Ext_append_crt.
  - rewrite Hderive. split.
    + intros H.
      assert (H' : base +:+ ".crt" = base +:+ filepath.Ext keyPath)
        by congruence.
      apply append_inj_l in H'. now symmetry.
    + intros H. rewrite H in Hbase. now symmetry.
Qed.

(** ** The validity of the command's certificates *)

(** X5. Line 64 of the command yields [days] times 24 hours exactly when
    [days] is between -106751 and 106751; whatever [days] is, the result is
    an [int64]. *)
Theorem validFor_exact_iff (days : Z) :
  (CertCmd.validFor days = days * (24 * time.Hour) <->
   -106751 <= days <= 106751) /\
  int64_range (CertCmd.validFor days).
Proof.
  assert (Hr : int64_range (CertCmd.validFor days))
    by (unfold CertCmd.validFor, time.mul; apply wrap64_range).
  split; [|exact Hr]. split.
  - intros H. rewrite H in Hr. unfold int64_range in Hr.
    change time.Hour with 3600000000000 in Hr. lia.
  - apply validFor_small.
Qed.

(** ** Every run of the commands *)


Section EveryRun.
Context {Ω : Type} (go : GoRuntime Ω).
Implicit Types w : World Ω.



End EveryRun.

Section MoreCommands.
Context {Ω : Type} (go : GoRuntime Ω).
Implicit Types w : World Ω.



(** X4. When key generation fails, either command (given a non-empty
    path) exits with status 1 having written no file: the failure is logged
    twice, by [NewPrivateKey] with the library's error and by [main] with the
    wrapped error, and nothing else is called. *)
Theorem keygen_failure_exits (fk : KeyCmd.Flags) (fc : CertCmd.Flags) w
    err ω1 :
  KeyCmd.outputFilePath fk <> "" ->
  CertCmd.privKeyFilePath fc <> "" ->
  ecdsa_GenerateKey go elliptic.P256 (ext w) = (Err err, ω1) ->
  let wrapped := fmt_Errorf_w "failed to generate private key" err in
  let logs :=
    [EvGenerateKey elliptic.P256;
     EvLog LevelError "Failed to generate private key"
           [("error", LError err)];
     EvLog LevelError "Failed to generate private key"
           [("error", LError wrapped)]] in
  KeyCmd.main go fk w
    = (Exit 1, {| ext := ω1; trace := trace w ++ logs |}) /\
  CertCmd.main go fc w
    = (Exit 1,
       {| ext := ω1;
          trace := trace w ++
            EvLog LevelInfo "Generating new private key..." [] :: logs |}) /\
  writes logs = [] /\
  errors_Unwrap wrapped = Some err /\
  error_Error wrapped
    = "failed to generate private key: " +:+ error_Error err.
Proof.
  intros Hk Hc Hgen. cbv zeta.
  split; [|split; [|repeat split]].
  - unfold KeyCmd.main.
    destruct (String.eqb_spec (KeyCmd.outputFilePath fk) "");
      [contradiction|].
    run_norm. rewrite (bind_unfold (myx509.NewPrivateKey go)),
      NewPrivateKey_run, Hgen. run_norm. reflexivity.
  - unfold CertCmd.main.
    destruct (String.eqb_spec (CertCmd.privKeyFilePath fc) "");
      [contradiction|].
    run_norm. rewrite (bind_unfold (myx509.NewPrivateKey go)),
      NewPrivateKey_run. cbn [ext trace]. rewrite Hgen. run_norm.
    reflexivity.
Qed.

(** X7. The certificate of a completed run of the command, for [-days]
    between -106751 and 106751: its validity is exactly [days] times 24
    hours (none at all for [days <= 0], which is not rejected); it is not a
    CA certificate and its key usage is digital signature alone; it has no
    DNS names and no IP addresses, and exactly one organization. *)
Theorem main_certificate_policy f w w' :
  -106751 <= CertCmd.validityDays f <= 106751 ->
  CertCmd.main go f w = (Ret tt, w') ->
  exists k keyDer t certDer,
    trace w' = trace w ++ success_trace f k keyDer t certDer /\
    x509.NotAfter t - x509.NotBefore t
      = CertCmd.validityDays f * (24 * time.Hour) /\
    (CertCmd.validityDays f <= 0 -> x509.NotAfter t <= x509.NotBefore t) /\
    x509.IsCA t = false /\
    x509.KeyUsage_ t = x509.KeyUsageDigitalSignature /\
    x509.has_usage (x509.KeyUsage_ t) x509.KeyUsageCertSign = false /\
    x509.DNSNames t = [] /\
    x509.IPAddresses t = [] /\
    pkix.Organization (x509.Subject t) = [CertCmd.org f].
Proof.
  intros Hdays Hrun.
  destruct (CertCmd_main_Ok_inv go f w w' Hrun)
    as (k & ω1 & keyDer & ω2 & sn & ω3 & now & ω4 & certDer & ω5 & parsed & H).
  cbv zeta in H. destruct H as (_ & _ & _ & _ & _ & _ & _ & _ & _ & _ & Htr).
  destruct (template_validity sn now (CertCmd.commonName f) [CertCmd.org f]
              [] [] (CertCmd.validFor (CertCmd.validityDays f)) false)
    as (_ & _ & Hdiff & _).
  pose proof (validFor_small _ Hdays) as Hv.
  eexists k, keyDer, _, certDer. split; [exact Htr|].
  assert (Harith : forall a b d : Z,
            a - b = d -> d = CertCmd.validityDays f * (24 * time.Hour) ->
            a - b = CertCmd.validityDays f * (24 * time.Hour) /\
            (CertCmd.validityDays f <= 0 -> a <= b)).
  { intros a b d Hab ->. split; [exact Hab|].
    revert Hab. change time.Hour with 3600000000000. intros Hab Hle. lia. }
  destruct (Harith _ _ _ Hdiff Hv) as [Hexact Hexpired].
  split; [exact Hexact|]. split; [exact Hexpired|]. repeat split.
Qed.

End MoreCommands.

Section MorePackage.
Context {Ω : Type} (go : GoRuntime Ω).
Implicit Types w : World Ω.

(** X6. A successful [NewCertificate] reads the clock once, after drawing
    the serial number, and signs a template that is valid from that reading
    for exactly [validFor]; a [validFor] of zero or less is not rejected and
    gives a certificate that is never valid.  The template carries the DNS
    names and IP addresses as given. *)
Theorem NewCertificate_validity_window privKey cn organization dns ips
    validFor isCA w c w' :
  myx509.NewCertificate go privKey cn organization dns ips validFor isCA w
    = (Ret (Ok c), w') ->
  exists serialNumber ω1 now ω2 t ω3,
    rand_Int go myx509.serialNumberLimit (ext w) = (Ok serialNumber, ω1) /\
    time_Now go ω1 = (now, ω2) /\
    x509_CreateCertificate go t t
      (ecdsa.Public (myx509.PrivateKey_Key privKey))
      (myx509.PrivateKey_Key privKey) ω2
      = (Ok (myx509.Certificate_DERBytes c), ω3) /\
    x509.NotBefore t = now /\
    x509.NotAfter t = time.Add now validFor /\
    x509.NotAfter t - x509.NotBefore t = validFor /\
    (validFor <= 0 -> x509.NotAfter t <= x509.NotBefore t) /\
    x509.DNSNames t = dns /\
    x509.IPAddresses t = ips.
Proof.
  intros Hrun.
  destruct (NewCertificate_Ok_inv go _ _ _ _ _ _ _ _ _ _ Hrun)
    as (sn & ω1 & now & ω2 & der & ω3 & parsed & Hr & Hn & Hc & _ & -> & _).
  destruct (template_validity sn now cn organization dns ips validFor isCA)
    as (Hnb & Hna & Hdiff & _).
  eexists sn, ω1, now, ω2, _, ω3.
  split; [exact Hr|]. split; [exact Hn|]. split; [exact Hc|].
  split; [exact Hnb|]. split; [exact Hna|]. split; [exact Hdiff|].
  split; [intros Hle; rewrite Hna, Hnb; unfold time.Add; lia|].
  unfold myx509.template. destruct isCA; split; reflexivity.
Qed.

(** X9. A certificate from [NewCertificate], saved with [SaveToFile]: what
    [x509.ParseCertificate] makes of the file read back is the certificate
    that [Cert()] returns. *)
Theorem Certificate_save_parse_round_trip privKey cn organization dns ips
    validFor isCA w c w1 filePath ws w2 data ω :
  parse_bytes_contract go ->
  file_contract go ->
  myx509.NewCertificate go privKey cn organization dns ips validFor isCA w
    = (Ret (Ok c), w1) ->
  myx509.Certificate_SaveToFile go c filePath ws = (Ret None, w2) ->
  os_ReadFile go filePath (ext w2) = (Ok data, ω) ->
  exists parsed,
    myx509.Certificate_Cert c = Some parsed /\
    x509_ParseCertificate go data = Ok parsed.
Proof.
  intros Hbytes Hfile Hnew Hsave Hread.
  destruct (NewCertificate_Ok_inv go _ _ _ _ _ _ _ _ _ _ Hnew)
    as (sn & ω1 & now & ω2 & der & ω3 & parsed & _ & _ & _ & Hp & -> & _).
  rewrite Certificate_SaveToFile_run in Hsave. cbn [myx509.derBytes] in Hsave.
  destruct der as [b|]; [|discriminate].
  destruct (os_WriteFile go _ _ _ _) as [[err|] ω'] eqn:Hw; [discriminate|].
  inversion Hsave; subst; clear Hsave. cbn [ext] in Hread.
  exists parsed. split; [reflexivity|].
  rewrite (Hbytes data (Some b) (Hfile _ _ _ _ _ _ _ Hw Hread)). exact Hp.
Qed.


(** X11. When [NewCertificate] returns an error, it is the error of the
    first library call that failed, wrapped with the name of the step:
    drawing the serial number, creating the certificate, or parsing it.  The
    steps run in that order and a failure ends the call: a failed draw is not
    followed by a signature, a failed signature is not followed by a
    parse. *)
Theorem NewCertificate_error_wraps privKey cn organization dns ips validFor
    isCA w e :
  fst (myx509.NewCertificate go privKey cn organization dns ips validFor isCA
         w) = Ret (Err e) ->
  exists step cause,
    e = fmt_Errorf_w step cause /\
    errors_Unwrap e = Some cause /\
    error_Error e = step +:+ ": " +:+ error_Error cause /\
    ((step = "failed to generate serial number" /\
      (exists ω1,
         rand_Int go myx509.serialNumberLimit (ext w) = (Err cause, ω1)) /\
      forallb (fun ev => match ev with
                         | EvCreateCertificate _ _ _ _ => false
                         | _ => true
                         end)
        (new_events w
           (snd (myx509.NewCertificate go privKey cn organization dns ips
                   validFor isCA w))) = true) \/
     (step = "failed to create certificate" /\
      (exists t pub priv ω2 ω3,
         x509_CreateCertificate go t t pub priv ω2 = (Err cause, ω3)) /\
      forallb (fun ev => match ev with
                         | EvParseCertificate _ => false
                         | _ => true
                         end)
        (new_events w
           (snd (myx509.NewCertificate go privKey cn organization dns ips
                   validFor isCA w))) = true) \/
     (step = "failed to parse created certificate" /\
      exists t pub priv ω2 der ω3,
        x509_CreateCertificate go t t pub priv ω2 = (Ok der, ω3) /\
        x509_ParseCertificate go der = Err cause)).
Proof.
  rewrite NewCertificate_run.
  destruct (rand_Int go _ _) as [[sn|err] ω1] eqn:Hr.
  - destruct (time_Now go ω1) as [now ω2]. cbv zeta.
    destruct (x509_CreateCertificate go _ _ _ _ _) as [[der|err] ω3] eqn:Hc.
    + destruct (x509_ParseCertificate go der) as [parsed|err] eqn:Hp;
        cbn [fst snd]; intros H; inversion H; subst; clear H.
      eexists _, err. repeat split. right. right.
      split; [reflexivity|]. eexists _, _, _, _, _, _. split; eassumption.
    + cbn [fst snd]. intros H; inversion H; subst; clear H.
      eexists _, err. repeat split. right. left.
      split; [reflexivity|]. split; [eauto 6|].
      erewrite new_events_app by reflexivity. reflexivity.
  - cbn [fst snd]. intros H; inversion H; subst; clear H.
    eexists _, err. repeat split. left.
    split; [reflexivity|]. split; [eauto|].
    erewrite new_events_app by reflexivity. reflexivity.
Qed.

(** X12. [PrivateKey.SaveToFile] returns an error in two cases only: the
    key cannot be marshalled, and then no write is attempted and nothing
    outside the program changes; or [os.WriteFile] fails, and then the error
    names the path.  Either way the library's error is wrapped. *)
Theorem PrivateKey_SaveToFile_errors (p : myx509.PrivateKey)
    (filePath : string) w e :
  fst (myx509.PrivateKey_SaveToFile go p filePath w) = Ret (Some e) ->
  exists cause,
    errors_Unwrap e = Some cause /\
    ((x509_MarshalECPrivateKey go (myx509.PrivateKey_Key p) = Err cause /\
      error_Error e
        = "failed to marshal private key to DER: " +:+ error_Error cause /\
      ext (snd (myx509.PrivateKey_SaveToFile go p filePath w)) = ext w /\
      writes (new_events w (snd (myx509.PrivateKey_SaveToFile go p filePath w)))
        = []) \/
     (exists der ω1,
        x509_MarshalECPrivateKey go (myx509.PrivateKey_Key p) = Ok der /\
        os_WriteFile go filePath der perm_0600 (ext w) = (Some cause, ω1) /\
        error_Error e
          = "failed to write DER data to private key file " +:+ filePath
            +:+ ": " +:+ error_Error cause)).
Proof.
  rewrite PrivateKey_SaveToFile_run. unfold myx509.PrivateKey_Key.
  destruct (x509_MarshalECPrivateKey go _) as [der|err] eqn:Hm.
  - destruct (os_WriteFile go _ _ _ _) as [[err|] ω1] eqn:Hw;
      cbn [fst snd]; intros H; inversion H; subst; clear H.
    exists err. split; [reflexivity|]. right.
    exists der, ω1. repeat split. exact Hw.
  - cbn [fst snd ext]. intros H; inversion H; subst; clear H.
    exists err. split; [reflexivity|]. left.
    repeat split. erewrite new_events_app by reflexivity. reflexivity.
Qed.

(** X13. [LoadPrivateKeyFromFile] returns an error in two cases only: the
    file cannot be read, and then nothing is parsed; or its contents do not
    parse as an EC private key.  Either way the library's error is wrapped
    and the message names the path.  When it returns a key, that key is what
    [x509.ParseECPrivateKey] made of the bytes read. *)
Theorem LoadPrivateKeyFromFile_cases (filePath : string) w :
  match fst (myx509.LoadPrivateKeyFromFile go filePath w) with
  | Ret (Ok p) =>
      exists data ω1,
        os_ReadFile go filePath (ext w) = (Ok data, ω1) /\
        x509_ParseECPrivateKey go data = Ok (myx509.PrivateKey_Key p)
  | Ret (Err e) =>
      exists cause,
        errors_Unwrap e = Some cause /\
        (((exists ω1, os_ReadFile go filePath (ext w) = (Err cause, ω1)) /\
          error_Error e
            = "failed to read private key file " +:+ filePath +:+ ": "
              +:+ error_Error cause /\
          forallb (fun ev => match ev with
                             | EvParseECPrivateKey _ => false
                             | _ => true
                             end)
            (new_events w (snd (myx509.LoadPrivateKeyFromFile go filePath w)))
            = true) \/
         ((exists data ω1,
             os_ReadFile go filePath (ext w) = (Ok data, ω1) /\
             x509_ParseECPrivateKey go data = Err cause) /\
          error_Error e
            = "failed to parse DER-encoded private key from " +:+ filePath
              +:+ ": " +:+ error_Error cause))
  | Exit _ => False
  end.
Proof.
  rewrite LoadPrivateKeyFromFile_run.
  destruct (os_ReadFile go _ _) as [[data|err] ω1] eqn:Hr.
  - destruct (x509_ParseECPrivateKey go data) as [k|err] eqn:Hp; cbn [fst snd].
    + exists data, ω1. split; [reflexivity | exact Hp].
    + exists err. split; [reflexivity|]. right.
      split; [eauto | reflexivity].
  - cbn [fst snd]. exists err. split; [reflexivity|]. left.
    split; [eauto|]. split; [reflexivity|].
    erewrite new_events_app by reflexivity. reflexivity.
Qed.

End MorePackage.

(** ** Further runs on the reference runtime *)

Lemma Ref_parse_bytes : parse_bytes_contract Ref.runtime.
Proof.
  intros der der' H. cbn. unfold Ref.ParseCertificate, Ref.unseal.
  destruct der as [[|b bs]|], der' as [[|b' bs']|]; cbn in H;
    try discriminate H; try reflexivity.
  now inversion H.
Qed.


(** Both commands with no entropy left. *)
Lemma keygen_failure_exits_witness :
  exit_status (fst (KeyCmd.main Ref.runtime KeyCmd.defaults
                      (Ref.boot [] 1000))) = 1 /\
  exit_status (fst (CertCmd.main Ref.runtime CertCmd.defaults
                      (Ref.boot [] 1000))) = 1.
Proof.
  destruct (keygen_failure_exits Ref.runtime KeyCmd.defaults CertCmd.defaults
              (Ref.boot [] 1000) Ref.EOF
              (Ref.set_entropy [] (ext (Ref.boot [] 1000)))
              ltac:(discriminate) ltac:(discriminate) eq_refl)
    as (Hk & Hc & _).
  rewrite Hk, Hc. split; reflexivity.
Defined.

(** A certificate asked for with a negative validity. *)
Lemma NewCertificate_validity_window_witness :
  exists c,
    fst (myx509.NewCertificate Ref.runtime Ref.sample_key "example.com"
           ["Example"] ["example.com"] [] (- time.Hour) false
           (Ref.boot (Ref.serial_entropy Byte.x2a) 1000)) = Ret (Ok c) /\
    exists t,
      x509.NotBefore t = 1000 /\
      x509.NotAfter t - x509.NotBefore t = - time.Hour /\
      x509.NotAfter t <= x509.NotBefore t /\
      x509.DNSNames t = ["example.com"].
Proof.
  eexists. compute_run Hrun.
  destruct (NewCertificate_validity_window Ref.runtime Ref.sample_key
              "example.com" ["Example"] ["example.com"] [] (- time.Hour)
              false (Ref.boot (Ref.serial_entropy Byte.x2a) 1000) _ _ Hrun)
    as (sn & ω1 & now & ω2 & t & ω3
        & Hr & Hn & _ & Hnb & _ & Hdiff & Hle & Hdns & _).
  exists t. split.
  - rewrite Hnb.
    assert (Hclock : fst (time_Now Ref.runtime ω1) = 1000).
    { cbn in Hr. unfold Ref.Int in Hr. cbn in Hr.
      injection Hr as _ <-. reflexivity. }
    rewrite Hn in Hclock. exact Hclock.
  - split; [exact Hdiff|]. split; [apply Hle; discriminate | exact Hdns].
Defined.

(** [-key out.key -days 30] on the reference runtime. *)
Lemma main_certificate_policy_witness :
  fst (CertCmd.main Ref.runtime (Ref.sample_flags "out.key" 30)
         Ref.sample_world) = Ret tt /\
  exists t,
    x509.NotAfter t - x509.NotBefore t = 30 * (24 * time.Hour) /\
    x509.IsCA t = false /\
    x509.DNSNames t = [].
Proof.
  compute_run Hrun.
  destruct (main_certificate_policy Ref.runtime
              (Ref.sample_flags "out.key" 30) Ref.sample_world _
              ltac:(cbn; lia) Hrun)
    as (k & keyDer & t & certDer & _ & Hdiff & _ & Hca & _ & _ & Hdns & _).
  exists t. split; [exact Hdiff|]. split; [exact Hca | exact Hdns].
Defined.

(** Build, save, read and parse a certificate. *)
Lemma Certificate_save_parse_round_trip_witness :
  exists c,
    fst (myx509.NewCertificate Ref.runtime Ref.sample_key "example.com"
           ["Example"] [] [] (CertCmd.validFor 30) false
           (Ref.boot (Ref.serial_entropy Byte.x2a) 1000)) = Ret (Ok c) /\
    fst (myx509.Certificate_SaveToFile Ref.runtime c "out.crt"
           Ref.sample_world) = Ret None /\
    exists data parsed,
      fst (os_ReadFile Ref.runtime "out.crt"
             (ext (snd (myx509.Certificate_SaveToFile Ref.runtime c "out.crt"
                          Ref.sample_world)))) = Ok data /\
      myx509.Certificate_Cert c = Some parsed /\
      x509_ParseCertificate Ref.runtime data = Ok parsed.
Proof.
  eexists. compute_run Hnew. compute_run Hsave.
  match type of Hsave with
  | _ = (_, ?w2) =>
      compute_call Hread (os_ReadFile Ref.runtime "out.crt" (ext w2))
  end.
  destruct (Certificate_save_parse_round_trip Ref.runtime Ref.sample_key
              "example.com" ["Example"] [] [] (CertCmd.validFor 30) false
              (Ref.boot (Ref.serial_entropy Byte.x2a) 1000) _ _ "out.crt"
              Ref.sample_world _ _ _ Ref_parse_bytes Ref_file
              Hnew Hsave Hread)
    as (parsed & Hcert & Hparse).
  eexists _, parsed. split; [exact (f_equal fst Hread)|].
  split; [exact Hcert | exact Hparse].
Defined.

(** [NewCertificate] with no entropy left. *)
Lemma NewCertificate_error_wraps_witness :
  exists e,
    fst (myx509.NewCertificate Ref.runtime Ref.sample_key "example.com"
           ["Example"] [] [] (CertCmd.validFor 30) false (Ref.boot [] 1000))
      = Ret (Err e) /\
    errors_Unwrap e = Some Ref.EOF /\
    error_Error e = "failed to generate serial number: unexpected EOF".
Proof.
  eexists. compute_run Hrun.
  destruct (NewCertificate_error_wraps Ref.runtime Ref.sample_key
              "example.com" ["Example"] [] [] (CertCmd.validFor 30) false
              (Ref.boot [] 1000) _ (f_equal fst Hrun))
    as (step & cause & He & _).
  injection He as <- <-. split; reflexivity.
Defined.

(** Saving a key to the empty path. *)
Lemma PrivateKey_SaveToFile_errors_witness :
  exists e,
    fst (myx509.PrivateKey_SaveToFile Ref.runtime Ref.sample_key ""
           Ref.sample_world) = Ret (Some e) /\
    exists cause, errors_Unwrap e = Some cause.
Proof.
  eexists. compute_run Hrun.
  destruct (PrivateKey_SaveToFile_errors Ref.runtime Ref.sample_key ""
              Ref.sample_world _ (f_equal fst Hrun))
    as (cause & Hunwrap & _).
  exists cause. exact Hunwrap.
Defined.
